(** * CarbonWatch: the session manager of [src/lib/auth.tsx]

    A shallow embedding of [AuthProvider]: its mount effect,
    [handleUnauthorized], [authFetch], [login], [register], [logout] and
    [refreshToken], over an explicit state made of [localStorage], the
    React state cells ([user], [token], [isLoading]), the log of
    [router.push] calls and the log of [fetch] calls.

    Conventions of the embedding.
    - The browser and the JavaScript runtime are interfaces of the program,
      not part of it: [JSON.parse], [JSON.stringify] and the build-time
      environment variable are the fields of the class [Platform]; the
      transport behind [fetch] is a function from requests to outcomes,
      passed to every operation that calls [fetch].
    - An [async] function runs here from call to settlement without another
      handler running in between (one tab, callers await the result).
    - [useState] setters are modelled by their committed effect.
    - A value is one that JSON can carry, so no member of it is a
      function; [localStorage] has room for what is written to it.
    - The headers of a request are the object the code hands to [fetch],
      with member names compared exactly, as JavaScript compares them.
      What [fetch] makes of that object on the wire, where names are
      folded to lower case and the values of equal names joined, is not
      part of the embedding. *)

From stdpp Require Import gmap strings list fin_maps pretty.

Local Open Scope string_scope.
Local Open Scope Z_scope.
Local Open Scope list_scope.

#[local] Set Warnings "-register-all".

(** ** JavaScript values *)

(** The values that can flow through the provider: what [JSON.parse] and
    [response.json()] produce, plus [undefined] (a missing property).
    A number is kept as its rendering by [Number.prototype.toString]
    ("0" for both zeros). *)
Inductive value : Type :=
| VUndefined
| VNull
| VBool (b : bool)
| VNum (repr : string)
| VStr (s : string)
| VArr (items : list value)
| VObj (props : list (string * value)).

(** JavaScript truthiness, as tested by [if (x)], [x && y], [x || y], [!x]. *)
Definition truthy (v : value) : bool :=
  match v with
  | VUndefined | VNull => false
  | VBool b => b
  | VNum repr => negb (bool_decide (repr = "0") || bool_decide (repr = "NaN"))
  | VStr s => negb (bool_decide (s = ""))
  | VArr _ | VObj _ => true
  end.

(** The string conversion [localStorage.setItem] applies to its value,
    for a value the conversion accepts (see [converts]). *)
Fixpoint ToString (v : value) : string :=
  match v with
  | VUndefined => "undefined"
  | VNull => "null"
  | VBool b => if b then "true" else "false"
  | VNum repr => repr
  | VStr s => s
  | VArr items =>
      String.concat ","
        (map (fun x => match x with
                       | VUndefined | VNull => ""
                       | _ => ToString x
                       end) items)
  | VObj _ => "[object Object]"
  end.

(** Whether the string conversion returns rather than throws. An object
    converts through its [toString] member: the one of [Object.prototype]
    unless the object has a member of its own by that name, and such a
    member of a parsed JSON value is never a function, which leaves the
    conversion with a [TypeError]. An array joins the conversions of its
    items. *)
Fixpoint converts (v : value) : bool :=
  match v with
  | VObj props =>
      negb (existsb (fun kv => bool_decide (kv.1 = "toString")) props)
  | VArr items => forallb converts items
  | _ => true
  end.

(** First binding of a key in an object's own properties. *)
Fixpoint own_prop (k : string) (props : list (string * value)) : value :=
  match props with
  | [] => VUndefined
  | (k', v) :: rest => if bool_decide (k' = k) then v else own_prop k rest
  end.

(** Whether a [User | null] or [string | null] cell holds something. *)
Definition present (v : value) : bool :=
  match v with
  | VUndefined | VNull => false
  | _ => true
  end.

(** What [localStorage.getItem] returns, as a JavaScript value. *)
Definition item (o : option string) : value :=
  match o with
  | Some s => VStr s
  | None => VNull
  end.

(** ** The platform *)

Class Platform : Type := {
  (** [JSON.parse]; [None] when it throws a [SyntaxError]. *)
  JSON_parse : string -> option value;
  (** [JSON.stringify]; [None] when it returns [undefined]. *)
  JSON_stringify : value -> option string;
  (** [process.env.NEXT_PUBLIC_API_URL]. *)
  NEXT_PUBLIC_API_URL : option string
}.

(** [const API_URL = process.env.NEXT_PUBLIC_API_URL || "http://localhost:8000/api"] *)
Definition API_URL `{Platform} : string :=
  match NEXT_PUBLIC_API_URL with
  | Some s => if truthy (VStr s) then s else "http://localhost:8000/api"
  | None => "http://localhost:8000/api"
  end.

(** ** Requests and responses *)

(** [HeadersInit]: a plain object, a [Headers] instance (given by its
    entries) or an array of string arrays. *)
Inductive HeadersInit : Type :=
| PlainObject (members : gmap string string)
| HeadersInstance (entries : list (string * string))
| PairArray (pairs : list (list string)).

(** What the spread [...h] copies into an object literal: the own
    enumerable properties of [h]. These are the members of a plain
    object and the indices of an array; a [Headers] instance has none
    (its entries are not properties), and neither has [undefined]. The
    member an index gives is an array, kept here as the string [fetch]
    reads it as. *)
Definition spread_headers (h : option HeadersInit) : gmap string string :=
  match h with
  | None => ∅
  | Some (PlainObject members) => members
  | Some (HeadersInstance _) => ∅
  | Some (PairArray pairs) =>
      list_to_map (imap (fun i pair => (pretty i, String.concat "," pair)) pairs)
  end.

(** [RequestInit]. Members other than [method], [headers] and [body] are
    kept by name in [extra]. *)
Record RequestInit : Type := mkInit {
  method : option string;
  headers : option HeadersInit;
  body : option string;
  extra : gmap string string
}.

Record Request : Type := mkRequest {
  url : string;
  init : RequestInit
}.

(** A [Response]: its status code, and what [response.json()] settles
    to ([None] when it rejects because the body is not JSON). *)
Record Response : Type := mkResponse {
  status : Z;
  json : option value
}.

(** [response.ok]: the status is in the range 200-299. *)
Definition ok (r : Response) : bool :=
  bool_decide (200 <= status r <= 299).

Inductive FetchOutcome : Type :=
| Rejected
| Fulfilled (r : Response).

(** The network as seen from one call of [fetch]. *)
Definition Transport : Type := Request -> FetchOutcome.

(** ** State *)

Record State : Type := mkState {
  localStorage : gmap string string;
  user : value;
  token : value;
  isLoading : bool;
  pushed : list string;
  fetched : list Request
}.

(** [useState(null)], [useState(null)], [useState(true)] over a given
    storage; nothing pushed or fetched yet. *)
Definition mounted (stored : gmap string string) : State :=
  mkState stored VNull VNull true [] [].

(** [isAuthenticated: !!token] *)
Definition isAuthenticated (st : State) : bool := truthy (token st).

(** ** Computations: state and exceptions *)

Inductive exn : Type := TypeError | SyntaxError | NetworkFailure.

Inductive completion (A : Type) : Type :=
| Normal (a : A)
| Throw (e : exn).
Arguments Normal {A} a.
Arguments Throw {A} e.

(** A computation runs from a state to a completion and a state; the
    writes made before a throw stay. *)
Definition M (A : Type) : Type := State -> completion A * State.

#[global] Instance M_ret : MRet M := fun A a st => (Normal a, st).

#[global] Instance M_bind : MBind M := fun A B f m st =>
  match m st with
  | (Normal a, st') => f a st'
  | (Throw e, st') => (Throw e, st')
  end.

Definition throw {A} (e : exn) : M A := fun st => (Throw e, st).

(** [try { body } catch { handler }] *)
Definition try_catch {A} (body handler : M A) : M A := fun st =>
  match body st with
  | (Normal a, st') => (Normal a, st')
  | (Throw _, st') => handler st'
  end.

Definition skip : M unit := mret tt.

(** *** Primitive effects *)

Definition getItem (k : string) : M (option string) := fun st =>
  (Normal (localStorage st !! k), st).

(** [localStorage.setItem(k, v)] converts [v] to a string before it
    writes, and the conversion can throw. The store is taken to have room
    for what the provider writes. *)
Definition setItem (k : string) (v : value) : M unit := fun st =>
  if converts v then
    (Normal tt,
     mkState (<[k := ToString v]> (localStorage st)) (user st) (token st)
             (isLoading st) (pushed st) (fetched st))
  else (Throw TypeError, st).

Definition removeItem (k : string) : M unit := fun st =>
  (Normal tt,
   mkState (delete k (localStorage st)) (user st) (token st)
           (isLoading st) (pushed st) (fetched st)).

Definition setUser (v : value) : M unit := fun st =>
  (Normal tt,
   mkState (localStorage st) v (token st) (isLoading st) (pushed st) (fetched st)).

Definition setToken (v : value) : M unit := fun st =>
  (Normal tt,
   mkState (localStorage st) (user st) v (isLoading st) (pushed st) (fetched st)).

Definition setIsLoading (b : bool) : M unit := fun st =>
  (Normal tt,
   mkState (localStorage st) (user st) (token st) b (pushed st) (fetched st)).

Definition router_push (path : string) : M unit := fun st =>
  (Normal tt,
   mkState (localStorage st) (user st) (token st) (isLoading st)
           (pushed st ++ [path]) (fetched st)).

(** The state once a request has been handed to [fetch]. *)
Definition sent (req : Request) (st : State) : State :=
  mkState (localStorage st) (user st) (token st) (isLoading st)
          (pushed st) (fetched st ++ [req]).

(** [await fetch(url, init)]: the call is logged; a rejected promise is a
    throw at the [await]. *)
Definition fetch (net : Transport) (u : string) (i : RequestInit) : M Response :=
  fun st =>
    let req := mkRequest u i in
    match net req with
    | Fulfilled r => (Normal r, sent req st)
    | Rejected => (Throw NetworkFailure, sent req st)
    end.

(** [await response.json()] *)
Definition response_json (r : Response) : M value :=
  match json r with
  | Some v => mret v
  | None => throw SyntaxError
  end.

(** [JSON.parse(s)] *)
Definition parse `{Platform} (s : string) : M value :=
  match JSON_parse s with
  | Some v => mret v
  | None => throw SyntaxError
  end.

(** [JSON.stringify(v)] *)
Definition stringify `{Platform} (v : value) : value :=
  match JSON_stringify v with
  | Some s => VStr s
  | None => VUndefined
  end.

(** [v.k] for a key that no built-in prototype defines ([access_token],
    [refresh_token], [user], [detail]): a [TypeError] on [null] and
    [undefined], the own property of an object, [undefined] elsewhere. *)
Definition get (v : value) (k : string) : M value :=
  match v with
  | VUndefined | VNull => throw TypeError
  | VObj props => mret (own_prop k props)
  | _ => mret VUndefined
  end.

(** ** The provider *)

(** The result of [login] and [register]: [{ success, error? }]. *)
Record AuthResult : Type := mkResult {
  success : bool;
  error : option value
}.

(** The operations the context hands to the pages. *)
Inductive Op : Type :=
| OpLogin (net : Transport) (email password : string)
| OpRegister (net : Transport) (name email password : string)
| OpLogout
| OpRefreshToken (net : Transport)
| OpHandleUnauthorized
| OpAuthFetch (net : Transport) (u : string) (options : RequestInit).

Section Provider.
Context `{Platform}.

(** The mount effect of [AuthProvider] (lines 49-64). *)
Definition mount_effect : M unit :=
  storedToken ← getItem "accessToken";
  storedUser ← getItem "user";
  match storedToken, storedUser with
  | Some t, Some u =>
      if truthy (VStr t) && truthy (VStr u) then
        setToken (VStr t);;
        try_catch
          (parsed ← parse u;
           setUser parsed)
          (removeItem "user")
      else skip
  | _, _ => skip
  end;;
  setIsLoading false.

(** [handleUnauthorized] (lines 66-75). *)
Definition handleUnauthorized : M unit :=
  removeItem "accessToken";;
  removeItem "refreshToken";;
  removeItem "user";;
  setToken VNull;;
  setUser VNull;;
  router_push "/".

(** The [Authorization] member [authFetch] writes:
    [currentToken ? `Bearer ${currentToken}` : ""]. *)
Definition authorization (currentToken : option string) : string :=
  match currentToken with
  | Some t => if truthy (VStr t) then "Bearer " +:+ t else ""
  | None => ""
  end.

(** [{ ...options.headers, Authorization: a }]: a plain object whose
    member names are compared exactly, as JavaScript compares them. *)
Definition with_authorization
    (callers : option HeadersInit) (a : string) : gmap string string :=
  <["Authorization" := a]> (spread_headers callers).

(** [{ ...options, headers: { ...options.headers, Authorization: ... } }] *)
Definition auth_init (options : RequestInit) (currentToken : option string)
  : RequestInit :=
  mkInit (method options)
         (Some (PlainObject (with_authorization (headers options)
                                                (authorization currentToken))))
         (body options)
         (extra options).

(** [authFetch] (lines 78-97); [options] is [{}] when the caller gives
    none. No [try] surrounds the [await]: a rejected [fetch] rejects
    [authFetch]. *)
Definition authFetch (net : Transport) (u : string) (options : RequestInit)
  : M Response :=
  currentToken ← getItem "accessToken";
  response ← fetch net u (auth_init options currentToken);
  (if bool_decide (status response = 401) then handleUnauthorized else skip);;
  mret response.

Definition json_headers : gmap string string :=
  {[ "Content-Type" := "application/json" ]}.

(** The second argument of [fetch] in [login], [register] and
    [refreshToken]: a POST of a JSON body. *)
Definition login_init (email password : string) : RequestInit :=
  mkInit (Some "POST") (Some (PlainObject json_headers))
         (JSON_stringify
            (VObj [("email", VStr email); ("password", VStr password)]))
         ∅.

Definition register_init (name email password : string) : RequestInit :=
  mkInit (Some "POST") (Some (PlainObject json_headers))
         (JSON_stringify
            (VObj [("name", VStr name); ("email", VStr email);
                   ("password", VStr password)]))
         ∅.

Definition refresh_init (storedRefreshToken : option string) : RequestInit :=
  mkInit (Some "POST") (Some (PlainObject json_headers))
         (JSON_stringify
            (VObj [("refresh_token", item storedRefreshToken)]))
         ∅.

(** [login] (lines 99-127). *)
Definition login (net : Transport) (email password : string) : M AuthResult :=
  try_catch
    (response ← fetch net (API_URL +:+ "/auth/login") (login_init email password);
     data ← response_json response;
     if ok response then
       access_token ← get data "access_token";
       setItem "accessToken" access_token;;
       refresh_token ← get data "refresh_token";
       setItem "refreshToken" refresh_token;;
       data_user ← get data "user";
       setItem "user" (stringify data_user);;
       access_token ← get data "access_token";
       setToken access_token;;
       data_user ← get data "user";
       setUser data_user;;
       mret (mkResult true None)
     else
       detail ← get data "detail";
       mret (mkResult false
               (Some (if truthy detail then detail
                      else VStr "Invalid email or password"))))
    (mret (mkResult false (Some (VStr "Network error. Please try again.")))).

(** [register] (lines 129-154). *)
Definition register (net : Transport) (name email password : string)
  : M AuthResult :=
  try_catch
    (response ← fetch net (API_URL +:+ "/auth/register")
                (register_init name email password);
     data ← response_json response;
     if ok response then
       access_token ← get data "access_token";
       setItem "accessToken" access_token;;
       refresh_token ← get data "refresh_token";
       setItem "refreshToken" refresh_token;;
       data_user ← get data "user";
       setItem "user" (stringify data_user);;
       access_token ← get data "access_token";
       setToken access_token;;
       data_user ← get data "user";
       setUser data_user;;
       mret (mkResult true None)
     else
       detail ← get data "detail";
       mret (mkResult false
               (Some (if truthy detail then detail
                      else VStr "Registration failed"))))
    (mret (mkResult false (Some (VStr "Network error. Please try again.")))).

(** [logout] (lines 156-163). *)
Definition logout : M unit :=
  removeItem "accessToken";;
  removeItem "refreshToken";;
  removeItem "user";;
  setToken VNull;;
  setUser VNull;;
  router_push "/".

(** [refreshToken] (lines 165-191). *)
Definition refreshToken (net : Transport) : M bool :=
  storedRefreshToken ← getItem "refreshToken";
  if negb (truthy (item storedRefreshToken)) then mret false
  else
    try_catch
      (response ← fetch net (API_URL +:+ "/auth/refresh")
                  (refresh_init storedRefreshToken);
       data ← response_json response;
       if ok response then
         access_token ← get data "access_token";
         setItem "accessToken" access_token;;
         access_token ← get data "access_token";
         setToken access_token;;
         mret true
       else
         logout;;
         mret false)
      (mret false).

End Provider.

(** ** Reading a run *)

Definition result {A} (m : M A) (st : State) : completion A := (m st).1.
Definition after {A} (m : M A) (st : State) : State := (m st).2.

(** No session field is left: the three storage keys and the two cells. *)
Definition no_session (st : State) : Prop :=
  localStorage st !! "accessToken" = None ∧
  localStorage st !! "refreshToken" = None ∧
  localStorage st !! "user" = None ∧
  token st = VNull ∧
  user st = VNull.

(** Two states that differ at most in the log of [fetch] calls. *)
Definition same_but_fetched (st st' : State) : Prop :=
  localStorage st' = localStorage st ∧
  user st' = user st ∧
  token st' = token st ∧
  isLoading st' = isLoading st ∧
  pushed st' = pushed st.

(** The state [logout] ends in, written out. *)
Definition cleared (st : State) : State :=
  mkState (delete "user" (delete "refreshToken"
             (delete "accessToken" (localStorage st))))
          VNull VNull (isLoading st) (pushed st ++ ["/"]) (fetched st).

(** What storage holds of a session: the access token, the refresh token
    and the text of the user record. *)
Definition stores_session (a rt text : string) (st : State) : Prop :=
  localStorage st !! "accessToken" = Some a ∧
  localStorage st !! "refreshToken" = Some rt ∧
  localStorage st !! "user" = Some text.

(** What memory holds of a session: the access token and the user. The
    provider has no cell for the refresh token. *)
Definition in_memory (st : State) : value * value := (token st, user st).

(** A failure result, [{ success: false, error }], with a truthy [error]. *)
Definition failure (res : AuthResult) : Prop :=
  success res = false ∧ ∃ msg, error res = Some msg ∧ truthy msg = true.

(** The [token] and [user] cells are both present or both absent. *)
Definition paired (st : State) : Prop :=
  present (token st) = present (user st).

(** [data.k] when reading it does not throw. *)
Definition member (data : value) (k : string) : value :=
  match data with
  | VObj props => own_prop k props
  | _ => VUndefined
  end.

(** The [error] that [login] and [register] report for an answer that is
    not ok: [data.detail || fallback] for a body [data] that [detail]
    can be read from, and the text of the [catch] for a body that is not
    JSON or is [null]. *)
Definition rejection_error (fallback : string) (r : Response) : value :=
  match json r with
  | Some data =>
      if present data then
        if truthy (member data "detail") then member data "detail"
        else VStr fallback
      else VStr "Network error. Please try again."
  | None => VStr "Network error. Please try again."
  end.

(** Every ok answer to [req] carries an access token and a user that are
    both present or both absent. *)
Definition answers_pair (net : Transport) (req : Request) : Prop :=
  ∀ r data, net req = Fulfilled r -> ok r = true -> json r = Some data ->
            present (member data "access_token") = present (member data "user").

(** Every ok answer to [req] carries an access token. *)
Definition answers_token (net : Transport) (req : Request) : Prop :=
  ∀ r data, net req = Fulfilled r -> ok r = true -> json r = Some data ->
            present (member data "access_token") = true.

Section Runs.
Context `{Platform}.

(** The requests the operations hand to [fetch]. *)
Definition login_request (email password : string) : Request :=
  mkRequest (API_URL +:+ "/auth/login") (login_init email password).

Definition register_request (name email password : string) : Request :=
  mkRequest (API_URL +:+ "/auth/register") (register_init name email password).

Definition refresh_request (st : State) : Request :=
  mkRequest (API_URL +:+ "/auth/refresh")
            (refresh_init (localStorage st !! "refreshToken")).

Definition auth_request (st : State) (u : string) (options : RequestInit)
  : Request :=
  mkRequest u (auth_init options (localStorage st !! "accessToken")).

Definition run (op : Op) (st : State) : State :=
  match op with
  | OpLogin net email password => after (login net email password) st
  | OpRegister net name email password =>
      after (register net name email password) st
  | OpLogout => after logout st
  | OpRefreshToken net => after (refreshToken net) st
  | OpHandleUnauthorized => after handleUnauthorized st
  | OpAuthFetch net u options => after (authFetch net u options) st
  end.

(** The conditions under which an operation keeps the pairing: the server
    answers [login] and [register] with a pair, and [refreshToken] is
    called with a token in memory and answered with a token. *)
Definition admissible (op : Op) (st : State) : Prop :=
  match op with
  | OpLogin net email password => answers_pair net (login_request email password)
  | OpRegister net name email password =>
      answers_pair net (register_request name email password)
  | OpRefreshToken net =>
      present (token st) = true ∧ answers_token net (refresh_request st)
  | OpLogout | OpHandleUnauthorized | OpAuthFetch _ _ _ => True
  end.

(** A stored user record that is read on mount (an access token is stored
    with it, neither of them empty) parses, and not to [null]. *)
Definition sound_user (stored : gmap string string) : Prop :=
  ∀ t u, stored !! "accessToken" = Some t -> t ≠ "" ->
         stored !! "user" = Some u -> u ≠ "" ->
         ∃ v, JSON_parse u = Some v ∧ present v = true.

(** The states of a provider mounted over [stored]. *)
Inductive reachable (stored : gmap string string) : State -> Prop :=
| reach_mount :
    reachable stored (after mount_effect (mounted stored))
| reach_step op st :
    reachable stored st -> admissible op st -> reachable stored (run op st).

End Runs.

(** ** A sample platform and scenarios

    [sample] stands for the JavaScript runtime in the examples. Its
    [JSON.stringify] is [serialize], right for values whose strings need
    no escaping. Its [JSON.parse] is right on the two texts the examples
    hand to it: the serialised record of one user, which it reads back,
    and a text that is not JSON, which it rejects. *)

Definition dquote : string := String (Ascii.ascii_of_nat 34) "".

Definition quoted (s : string) : string := dquote +:+ s +:+ dquote.

Fixpoint serialize (v : value) : option string :=
  match v with
  | VUndefined => None
  | VNull => Some "null"
  | VBool b => Some (if b then "true" else "false")
  | VNum repr => Some repr
  | VStr s => Some (quoted s)
  | VArr items =>
      Some ("[" +:+ String.concat ","
                      (map (fun x => default "null" (serialize x)) items)
                +:+ "]")
  | VObj props =>
      Some ("{" +:+ String.concat ","
                      (omap (fun kv => match serialize (snd kv) with
                                       | Some text => Some (quoted (fst kv) +:+ ":" +:+ text)
                                       | None => None
                                       end) props)
                +:+ "}")
  end.

Definition alice : value :=
  VObj [("id", VStr "1"); ("email", VStr "a@b.com"); ("name", VStr "A")].

Definition alice_text : string := default "" (serialize alice).

Definition sample : Platform := {|
  JSON_parse s := if bool_decide (s = alice_text) then Some alice else None;
  JSON_stringify := serialize;
  NEXT_PUBLIC_API_URL := None
|}.

(** A browser in which alice is signed in: what a [login] answered with
    [T1], [R1] and her record leaves. *)
Definition session_store : gmap string string :=
  {[ "accessToken" := "T1"; "refreshToken" := "R1"; "user" := alice_text ]}.

Definition signed_in : State :=
  mkState session_store alice (VStr "T1") false [] [].

Definition signed_out : State := mkState ∅ VNull VNull false [] [].

(** Another tab has renewed the token: storage has [T2], the [token] cell
    still [T1]. *)
Definition renewed_elsewhere : State :=
  mkState (<["accessToken" := "T2"]> session_store) alice (VStr "T1") false [] [].

(** Storage in which the user record has been damaged. *)
Definition corrupted_store : gmap string string :=
  {[ "accessToken" := "T1"; "refreshToken" := "R1"; "user" := "{bad" ]}.

(** Storage holding a damaged user record and nothing else. *)
Definition orphan_store : gmap string string :=
  {[ "user" := "{bad" ]}.

(** A network that is down. *)
Definition offline : Transport := fun _ => Rejected.

(** A server that answers 401 with a FastAPI error body. *)
Definition refusal : Response :=
  mkResponse 401 (Some (VObj [("detail", VStr "Invalid refresh token")])).

Definition refusing : Transport := fun _ => Fulfilled refusal.

(** A server that renews with [T2]. *)
Definition renewal : Response :=
  mkResponse 200 (Some (VObj [("access_token", VStr "T2")])).

Definition renewing : Transport := fun _ => Fulfilled renewal.

(** A server that signs alice in, with refresh token [rt]. *)
Definition welcome (rt : string) : Response :=
  mkResponse 200
    (Some (VObj [("access_token", VStr "T1"); ("refresh_token", VStr rt);
                 ("user", alice)])).

Definition welcoming (rt : string) : Transport := fun _ => Fulfilled (welcome rt).

(** A caller's options with headers of its own, [Authorization] among
    them. *)
Definition callers_options : RequestInit :=
  mkInit (Some "GET")
         (Some (PlainObject
                  {[ "Authorization" := "Bearer mine"; "Accept" := "application/json" ]}))
         None ∅.

(** The same headers, given as a [Headers] instance. *)
Definition instance_options : RequestInit :=
  mkInit (Some "GET")
         (Some (HeadersInstance
                  [("Authorization", "Bearer mine"); ("Accept", "application/json")]))
         None ∅.

(** One header, given in an array of pairs. *)
Definition array_options : RequestInit :=
  mkInit (Some "GET") (Some (PairArray [["Accept"; "application/json"]])) None ∅.

(** A caller that spells the header in lower case. *)
Definition lowercase_options : RequestInit :=
  mkInit (Some "GET") (Some (PlainObject {[ "authorization" := "Bearer mine" ]}))
         None ∅.

(** More answers a server can give. *)

(** 403, with a FastAPI error body. *)
Definition forbidden : Response :=
  mkResponse 403 (Some (VObj [("detail", VStr "Not enough permissions")])).

Definition forbidding : Transport := fun _ => Fulfilled forbidden.

(** 200, with an empty object as body. *)
Definition hollow : Response := mkResponse 200 (Some (VObj [])).

Definition hollowing : Transport := fun _ => Fulfilled hollow.

(** 502 from a proxy, with a body that is not JSON. *)
Definition bad_gateway : Response := mkResponse 502 None.

Definition failing_gateway : Transport := fun _ => Fulfilled bad_gateway.



(** 422 from FastAPI's validation: [detail] is a list. *)
Definition unprocessable : Response :=
  mkResponse 422
    (Some (VObj [("detail", VArr [VObj [("msg", VStr "value is not a valid email address")]])])).

Definition rejecting_input : Transport := fun _ => Fulfilled unprocessable.

(** ** Pages that read the provider *)

(** What a guarded page renders: the spinner, nothing, or its content. *)
Inductive View : Type := Spinner | Nothing | Content.

(** The effect of [AuthenticatedComponent], the component [withAuth]
    returns (auth.tsx, lines 227-231), and of [DashboardLayout]
    (layout.tsx, lines 57-61): the same code over [useAuth()]. *)
Definition AuthenticatedComponent_effect : M unit := fun st =>
  (if negb (isLoading st) && negb (isAuthenticated st)
   then router_push "/login"
   else skip) st.

(** What the two render (auth.tsx, lines 233-245; layout.tsx, lines
    69-82). *)
Definition AuthenticatedComponent_render (st : State) : View :=
  if isLoading st then Spinner
  else if negb (isAuthenticated st) then Nothing
  else Content.

(** [Home]'s mount effect (app/page.tsx, lines 13-17) sets the page's own
    [isAuthenticated] to [!!token], with [token] read from storage. *)
Definition Home_isAuthenticated (st : State) : bool :=
  truthy (item (localStorage st !! "accessToken")).

(** [handleGetStarted] of [Home] (app/page.tsx, lines 19-25), over the
    page's [isAuthenticated]. *)
Definition handleGetStarted (isAuthenticated : bool) : M unit :=
  if isAuthenticated then router_push "/dashboard" else router_push "/login".

(** [RegisterPage] (app/register/page.tsx): the page's [error] and
    [isLoading] cells, the log of [router.replace] calls, and the
    provider below it. A string is its sequence of code units, so
    [String.length] is [.length]. *)
Record RegisterPage : Type := mkRegisterPage {
  shown : value;
  submitting : bool;
  replaced : list string;
  auth : State
}.

Section Register.
Context `{Platform}.

(** [handleSubmit] of [RegisterPage] (lines 25-52). The [await] is under
    no [try]: were [register] to throw, the handler would stop there. *)
Definition handleSubmit (net : Transport)
    (name email password confirmPassword : string) (pg : RegisterPage)
  : RegisterPage :=
  let pg := mkRegisterPage (VStr "") (submitting pg) (replaced pg) (auth pg) in
  if negb (bool_decide (password = confirmPassword)) then
    mkRegisterPage (VStr "Passwords do not match")
                   (submitting pg) (replaced pg) (auth pg)
  else if (String.length password <? 6)%nat then
    mkRegisterPage (VStr "Password must be at least 6 characters")
                   (submitting pg) (replaced pg) (auth pg)
  else
    let pg := mkRegisterPage (shown pg) true (replaced pg) (auth pg) in
    match register net name email password (auth pg) with
    | (Normal res, st) =>
        if success res then
          mkRegisterPage (shown pg) (submitting pg)
                         (replaced pg ++ ["/dashboard"]) st
        else
          mkRegisterPage
            (if truthy (default VUndefined (error res))
             then default VUndefined (error res)
             else VStr "Registration failed. Please try again.")
            false (replaced pg) st
    | (Throw _, st) =>
        mkRegisterPage (shown pg) (submitting pg) (replaced pg) st
    end.

End Register.

(** [isActive] of [DashboardLayout] (layout.tsx, lines 63-68), over the
    current [pathname]. *)
Definition isActive (pathname href : string) : bool :=
  if bool_decide (href = "/dashboard") then bool_decide (pathname = "/dashboard")
  else String.prefix href pathname.

(** The [href]s of [navItems] in the two layouts (layout.tsx, lines
    21-46, and its variant with two entries). *)
Definition navItems : list string :=
  ["/dashboard"; "/dashboard/transactions"; "/dashboard/insights";
   "/dashboard/progress"].

Definition navItems_compact : list string :=
  ["/dashboard"; "/dashboard/details"].

(** ** The event bus ([lib/events])

    [window]'s listeners for the [transactions-updated] event, in the
    order they were added. A callback is known by its identity, a number
    here. As [EventTarget] has it, adding a listener that is already
    there does nothing, and removing takes the one registration out. *)
Abbreviation Listeners := (list nat).

Definition addEventListener (callback : nat) (ls : Listeners) : Listeners :=
  if bool_decide (callback ∈ ls) then ls else ls ++ [callback].

Definition removeEventListener (callback : nat) (ls : Listeners) : Listeners :=
  filter (fun c => c ≠ callback) ls.

(** [emitTransactionsUpdated]: the callbacks [dispatchEvent] runs, in
    order; [window] is [None] where [typeof window] is ["undefined"]. *)
Definition emitTransactionsUpdated (window : option Listeners) : list nat :=
  match window with
  | Some ls => ls
  | None => []
  end.

(** [onTransactionsUpdated]: [window] afterwards, and the function
    returned, as what it does to the [window] it is later called in. *)
Definition onTransactionsUpdated (callback : nat) (window : option Listeners)
  : option Listeners * (option Listeners -> option Listeners) :=
  match window with
  | None => (None, fun w => w)
  | Some ls =>
      (Some (addEventListener callback ls),
       fun w => removeEventListener callback <$> w)
  end.

(** ** The API client ([lib/api])

    The module variable [accessToken] beside the browser state. *)
Record Api : Type := mkApi {
  accessToken : value;
  browser : State
}.

(** What a call of the client settles to: the value it resolves to, the
    value it throws, or the failure it rejects with. *)
Inductive ApiOutcome : Type :=
| Returned (v : value)
| Thrown (error : value)
| Failed (e : exn).

(** [{ ...base, ...more }] over headers: a later member wins. *)
Definition spread (base more : gmap string string) : gmap string string :=
  more ∪ base.

(** The error [fetchApi] throws when the body of a failed response is not
    JSON. *)
Definition unexpected_error : value :=
  VObj [("message", VStr "An unexpected error occurred");
        ("code", VStr "UNKNOWN_ERROR")].

Section ApiClient.
Context `{Platform}.

(** [API_BASE_URL], the same expression as [API_URL]. *)
Definition API_BASE_URL : string := API_URL.

(** [setAccessToken] (lines 27-34): the client and the browser it
    leaves. The assignment comes first, and stays when [setItem]
    throws. *)
Definition setAccessToken (tok : value) (a : Api) : Api :=
  mkApi tok
        (if truthy tok
         then after (setItem "accessToken" tok) (browser a)
         else after (removeItem "accessToken") (browser a)).

(** How that call completes: as its [setItem] or [removeItem] does. *)
Definition setAccessToken_completion (tok : value) (a : Api) : completion unit :=
  if truthy tok
  then result (setItem "accessToken" tok) (browser a)
  else result (removeItem "accessToken") (browser a).

(** [getAccessToken] (lines 36-42), in the browser. *)
Definition getAccessToken (a : Api) : value * Api :=
  if truthy (accessToken a) then (accessToken a, a)
  else
    let stored := item (localStorage (browser a) !! "accessToken") in
    (stored, mkApi stored (browser a)).

(** The [headers] that [fetchApi] builds (lines 51-55). *)
Definition api_headers (tok : value) (options : RequestInit)
  : gmap string string :=
  spread (spread {[ "Content-Type" := "application/json" ]}
                 (if truthy tok
                  then {[ "Authorization" := "Bearer " +:+ ToString tok ]}
                  else ∅))
         (spread_headers (headers options)).

(** The request [fetchApi] hands to [fetch]. *)
Definition api_request (tok : value) (endpoint : string) (options : RequestInit)
  : Request :=
  mkRequest (API_BASE_URL +:+ endpoint)
            (mkInit (method options) (Some (PlainObject (api_headers tok options)))
                    (body options) (extra options)).

(** [fetchApi] (lines 45-71). The template literal converts [token] to
    a string: a token that does not convert (one that [setAccessToken]
    assigned before its [setItem] threw) makes it throw, before any
    request. *)
Definition fetchApi (net : Transport) (endpoint : string) (options : RequestInit)
    (a : Api) : ApiOutcome * Api :=
  let '(tok, a) := getAccessToken a in
  if truthy tok && negb (converts tok) then (Failed TypeError, a)
  else
    match fetch net (API_BASE_URL +:+ endpoint)
                (mkInit (method options) (Some (PlainObject (api_headers tok options)))
                        (body options) (extra options))
                (browser a) with
    | (Throw e, st) => (Failed e, mkApi (accessToken a) st)
    | (Normal response, st) =>
        if negb (ok response) then
          (Thrown (default unexpected_error (json response)),
           mkApi (accessToken a) st)
        else
          match json response with
          | Some v => (Returned v, mkApi (accessToken a) st)
          | None => (Failed SyntaxError, mkApi (accessToken a) st)
          end
    end.

(** [v.accessToken]: a [TypeError] on [null] and [undefined]. *)
Definition read_accessToken (v : value) : option value :=
  match v with
  | VUndefined | VNull => None
  | _ => Some (member v "accessToken")
  end.

(** [authApi.login] (lines 77-84). *)
Definition authApi_login (net : Transport) (email password : string) (a : Api)
  : ApiOutcome * Api :=
  match fetchApi net "/auth/login"
          (mkInit (Some "POST") None
                  (JSON_stringify
                     (VObj [("email", VStr email); ("password", VStr password)]))
                  ∅) a with
  | (Returned response, a) =>
      match read_accessToken response with
      | Some tok =>
          match setAccessToken_completion tok a with
          | Normal _ => (Returned response, setAccessToken tok a)
          | Throw e => (Failed e, setAccessToken tok a)
          end
      | None => (Failed TypeError, a)
      end
  | (outcome, a) => (outcome, a)
  end.

(** [authApi.logout] (lines 99-102); [setAccessToken(null)] removes the
    key, which does not throw. *)
Definition authApi_logout (net : Transport) (a : Api) : ApiOutcome * Api :=
  match fetchApi net "/auth/logout" (mkInit (Some "POST") None None ∅) a with
  | (Returned _, a) => (Returned VUndefined, setAccessToken VNull a)
  | (outcome, a) => (outcome, a)
  end.

(** The requests [authApi.login] and [authApi.logout] hand to [fetch],
    through [fetchApi]. *)
Definition authApi_login_request (email password : string) (a : Api) : Request :=
  api_request (fst (getAccessToken a)) "/auth/login"
    (mkInit (Some "POST") None
            (JSON_stringify
               (VObj [("email", VStr email); ("password", VStr password)]))
            ∅).

Definition authApi_logout_request (a : Api) : Request :=
  api_request (fst (getAccessToken a)) "/auth/logout"
    (mkInit (Some "POST") None None ∅).

End ApiClient.

(** A client that holds alice's token, in her browser. *)
Definition holding : Api := mkApi (VStr "T1") signed_in.

(** A server that answers with 204 and no body. *)
Definition no_content : Response := mkResponse 204 None.

Definition acknowledging : Transport := fun _ => Fulfilled no_content.

(** * Properties *)

(** Unfolds the plumbing of a run: binds, catches and primitive effects. *)
Ltac step :=
  unfold mbind, M_bind, mret, M_ret, try_catch, throw, skip,
         getItem, setItem, removeItem, setToken, setUser, setIsLoading,
         router_push, fetch, response_json, parse, get; simpl.

(** Splits a run at each string conversion of [setItem]. *)
Ltac split_converts :=
  repeat match goal with
         | |- context [converts ?v] => destruct (converts v) eqn:?; simpl
         end.

(** ** What [logout] and [handleUnauthorized] leave *)

Lemma logout_run st : logout st = (Normal tt, cleared st).
Proof. reflexivity. Qed.

Lemma handleUnauthorized_run st : handleUnauthorized st = (Normal tt, cleared st).
Proof. reflexivity. Qed.

Lemma cleared_no_session st : no_session (cleared st).
Proof.
  unfold no_session, cleared; simpl.
  repeat split; by simplify_map_eq.
Qed.

Lemma cleared_paired st : paired (cleared st).
Proof. reflexivity. Qed.

Lemma sent_same st req : same_but_fetched st (sent req st).
Proof. by repeat split. Qed.

(** ** [refreshToken] *)

Section Refresh.
Context `{Platform}.

(** C4: with no refresh token in storage, [refreshToken] returns false,
    calls [fetch] not at all, and leaves the whole state, storage and
    memory, as it was. *)
Theorem refreshToken_without_refresh_token (net : Transport) (st : State) :
  localStorage st !! "refreshToken" = None ->
  refreshToken net st = (Normal false, st).
Proof.
  intros Hnone. unfold refreshToken. step. by rewrite Hnone.
Qed.

(** C5: when the renewal endpoint answers a stored refresh token with an
    ok response carrying a new access token, [refreshToken] returns true;
    storage is the old one with [accessToken] overwritten, the [token]
    cell holds the new token, and the stored refresh token, the stored
    user record, the [user] cell, the loading flag and the navigation log
    are as before. *)
Theorem refreshToken_success (net : Transport) (st : State)
    (rt : string) (r : Response) (props : list (string * value)) (t : string) :
  localStorage st !! "refreshToken" = Some rt ->
  rt ≠ "" ->
  net (refresh_request st) = Fulfilled r ->
  ok r = true ->
  json r = Some (VObj props) ->
  own_prop "access_token" props = VStr t ->
  result (refreshToken net) st = Normal true ∧
  localStorage (after (refreshToken net) st)
    = <["accessToken" := t]> (localStorage st) ∧
  token (after (refreshToken net) st) = VStr t ∧
  localStorage (after (refreshToken net) st) !! "refreshToken" = Some rt ∧
  localStorage (after (refreshToken net) st) !! "user"
    = localStorage st !! "user" ∧
  user (after (refreshToken net) st) = user st ∧
  isLoading (after (refreshToken net) st) = isLoading st ∧
  pushed (after (refreshToken net) st) = pushed st.
Proof.
  intros Hrt Hne Hnet Hok Hjson Htok.
  unfold result, after, refreshToken, refresh_request in *. step.
  rewrite Hrt in *. simpl.
  rewrite bool_decide_eq_false_2 by done. simpl.
  rewrite Hnet, Hjson. simpl. rewrite Hok. simpl.
  rewrite Htok. simpl.
  repeat split; by simplify_map_eq.
Qed.

(** C1, as amended: with a refresh token in storage, a renewal the server
    refuses (a response that is not ok, with a JSON body) makes
    [refreshToken] return false and end in the state [logout] would
    leave, the three storage keys and both cells cleared; a renewal that
    fails in the network makes it return false and leaves storage and
    memory as they were. *)
Theorem refreshToken_failure (net : Transport) (st : State) :
  truthy (item (localStorage st !! "refreshToken")) = true ->
  (∀ r data,
      net (refresh_request st) = Fulfilled r ->
      ok r = false ->
      json r = Some data ->
      result (refreshToken net) st = Normal false ∧
      after (refreshToken net) st = after logout (sent (refresh_request st) st) ∧
      no_session (after (refreshToken net) st)) ∧
  (net (refresh_request st) = Rejected ->
   result (refreshToken net) st = Normal false ∧
   same_but_fetched st (after (refreshToken net) st)).
Proof.
  intros Hrt. split.
  - intros r data Hnet Hok Hjson.
    assert (Hrun : refreshToken net st
                   = (Normal false, cleared (sent (refresh_request st) st))).
    { unfold refreshToken, refresh_request in *. step.
      rewrite Hrt. simpl. by rewrite Hnet, Hjson, Hok. }
    unfold result, after. rewrite Hrun, logout_run. simpl.
    repeat split; apply cleared_no_session.
  - intros Hnet.
    assert (Hrun : refreshToken net st
                   = (Normal false, sent (refresh_request st) st)).
    { unfold refreshToken, refresh_request in *. step.
      rewrite Hrt. simpl. by rewrite Hnet. }
    unfold result, after. rewrite Hrun. simpl.
    split; [done | apply sent_same].
Qed.

End Refresh.

(** Signed out, nothing is renewed. *)
Lemma refreshToken_without_refresh_token_witness :
  @refreshToken sample renewing signed_out = (Normal false, signed_out).
Proof.
  apply (@refreshToken_without_refresh_token sample renewing signed_out).
  reflexivity.
Defined.

(** Alice's token is renewed from [T1] to [T2]. *)
Lemma refreshToken_success_witness :
  result (@refreshToken sample renewing) signed_in = Normal true ∧
  localStorage (after (@refreshToken sample renewing) signed_in)
    = <["accessToken" := "T2"]> session_store ∧
  token (after (@refreshToken sample renewing) signed_in) = VStr "T2" ∧
  localStorage (after (@refreshToken sample renewing) signed_in) !! "refreshToken"
    = Some "R1" ∧
  localStorage (after (@refreshToken sample renewing) signed_in) !! "user"
    = Some alice_text ∧
  user (after (@refreshToken sample renewing) signed_in) = alice ∧
  isLoading (after (@refreshToken sample renewing) signed_in) = false ∧
  pushed (after (@refreshToken sample renewing) signed_in) = [].
Proof.
  apply (@refreshToken_success sample renewing signed_in "R1" renewal
           [("access_token", VStr "T2")] "T2");
    first [ reflexivity | discriminate ].
Defined.

(** C1, a counterexample: alice is signed in and the network is down.
    [refreshToken] returns false, and the access token, the refresh token
    and the user are all still there, in storage and in memory; nothing
    was pushed to the router. *)
Lemma refreshToken_offline_keeps_session :
  result (@refreshToken sample offline) signed_in = Normal false ∧
  localStorage (after (@refreshToken sample offline) signed_in) !! "accessToken"
    = Some "T1" ∧
  localStorage (after (@refreshToken sample offline) signed_in) !! "refreshToken"
    = Some "R1" ∧
  localStorage (after (@refreshToken sample offline) signed_in) !! "user"
    = Some alice_text ∧
  token (after (@refreshToken sample offline) signed_in) = VStr "T1" ∧
  user (after (@refreshToken sample offline) signed_in) = alice ∧
  pushed (after (@refreshToken sample offline) signed_in) = [].
Proof. vm_compute. repeat split. Qed.

(** The server refuses alice's refresh token. *)
Lemma refreshToken_failure_witness :
  result (@refreshToken sample refusing) signed_in = Normal false ∧
  after (@refreshToken sample refusing) signed_in
    = after logout (sent (@refresh_request sample signed_in) signed_in) ∧
  no_session (after (@refreshToken sample refusing) signed_in).
Proof.
  apply (proj1 (@refreshToken_failure sample refusing signed_in eq_refl)
               refusal (VObj [("detail", VStr "Invalid refresh token")]));
    reflexivity.
Defined.

(** ** [authFetch] *)

(** Whatever the transport does, [authFetch] calls [fetch] once, with
    [auth_request]. *)
Lemma authFetch_fetched (net : Transport) u options st :
  fetched (after (authFetch net u options) st)
  = fetched st ++ [auth_request st u options].
Proof.
  unfold after, authFetch, auth_request. step.
  destruct (net _) as [|r]; [done|].
  simpl. by case_bool_decide.
Qed.

(** C3: when the response has status 401, [authFetch] resolves to that
    very response, and ends in the state [logout] would leave after the
    one request: the three storage keys removed, [token] and [user] null,
    one ["/"] pushed to the router. The log of [fetch] calls grows by the
    caller's request and nothing else: no retry, no renewal. *)
Theorem authFetch_unauthorized (net : Transport) (u : string)
    (options : RequestInit) (st : State) (r : Response) :
  net (auth_request st u options) = Fulfilled r ->
  status r = 401 ->
  result (authFetch net u options) st = Normal r ∧
  after (authFetch net u options) st
    = after logout (sent (auth_request st u options) st) ∧
  no_session (after (authFetch net u options) st) ∧
  pushed (after (authFetch net u options) st) = pushed st ++ ["/"] ∧
  fetched (after (authFetch net u options) st)
    = fetched st ++ [auth_request st u options].
Proof.
  intros Hnet H401.
  assert (Hrun : authFetch net u options st
                 = (Normal r, cleared (sent (auth_request st u options) st))).
  { unfold authFetch, auth_request in *. step. rewrite Hnet. simpl.
    by rewrite bool_decide_eq_true_2. }
  unfold result, after. rewrite Hrun, logout_run. simpl.
  repeat split; apply cleared_no_session.
Qed.

(** C6, as amended: on every call whose options give headers as a plain
    object [callers], or give none, the request [authFetch] issues has
    the caller's url, method, body and other members, and as headers the
    object [hs] that is [callers] with the member [Authorization] set
    from the stored access token alone: [Bearer t] for a stored token
    [t], the empty string for a stored empty string. The [token] cell of
    [st] plays no part, and neither does a member of [callers] named
    [Authorization]. Every member under another name, a name that
    differs only in case among them, is as the caller gave it. *)
Theorem authFetch_attaches_stored_token (net : Transport) (u : string)
    (options : RequestInit) (st : State) (callers : gmap string string) :
  headers options = Some (PlainObject callers)
  ∨ (headers options = None ∧ callers = ∅) ->
  ∃ hs : gmap string string,
    fetched (after (authFetch net u options) st)
      = fetched st
        ++ [mkRequest u (mkInit (method options) (Some (PlainObject hs))
                                (body options) (extra options))] ∧
    hs !! "Authorization"
      = Some (authorization (localStorage st !! "accessToken")) ∧
    (∀ t, localStorage st !! "accessToken" = Some t -> t ≠ "" ->
          hs !! "Authorization" = Some ("Bearer " +:+ t)) ∧
    (localStorage st !! "accessToken" = Some "" ->
     hs !! "Authorization" = Some "") ∧
    (∀ k, k ≠ "Authorization" -> hs !! k = callers !! k).
Proof.
  intros Hform.
  assert (Hspread : spread_headers (headers options) = callers).
  { destruct Hform as [-> | [-> ->]]; reflexivity. }
  exists (with_authorization (headers options)
            (authorization (localStorage st !! "accessToken"))).
  rewrite authFetch_fetched.
  unfold auth_request, auth_init, with_authorization. rewrite Hspread.
  split; [done|]. split; [by simplify_map_eq|]. split; [|split].
  - intros t Ht Hne. unfold authorization. rewrite Ht. simpl.
    rewrite bool_decide_eq_false_2 by done. by simplify_map_eq.
  - intros Ht. unfold authorization. rewrite Ht. simpl. by simplify_map_eq.
  - intros k Hk. by simplify_map_eq.
Qed.

(** C10: with no access token in storage, [authFetch] still calls
    [fetch], and the headers of the request have an [Authorization]
    member whose value is the empty string. *)
Theorem authFetch_without_token (net : Transport) (u : string)
    (options : RequestInit) (st : State) :
  localStorage st !! "accessToken" = None ->
  ∃ hs : gmap string string,
    fetched (after (authFetch net u options) st)
      = fetched st
        ++ [mkRequest u (mkInit (method options) (Some (PlainObject hs))
                                (body options) (extra options))] ∧
    hs !! "Authorization" = Some "".
Proof.
  intros Hnone.
  exists (with_authorization (headers options) "").
  rewrite authFetch_fetched.
  unfold auth_request, auth_init, authorization, with_authorization.
  rewrite Hnone. simpl.
  split; by simplify_map_eq.
Qed.

(** The server answers alice's request with 401. *)
Lemma authFetch_unauthorized_witness :
  result (authFetch refusing "/api/transactions" callers_options) signed_in
    = Normal refusal ∧
  no_session (after (authFetch refusing "/api/transactions" callers_options) signed_in) ∧
  pushed (after (authFetch refusing "/api/transactions" callers_options) signed_in)
    = ["/"] ∧
  fetched (after (authFetch refusing "/api/transactions" callers_options) signed_in)
    = [auth_request signed_in "/api/transactions" callers_options].
Proof.
  destruct (authFetch_unauthorized refusing "/api/transactions" callers_options
              signed_in refusal) as (Hres & _ & Hnone & Hpush & Hfetch);
    [reflexivity | reflexivity |].
  repeat split; first [ exact Hres | apply Hnone | exact Hpush | exact Hfetch ].
Defined.

(** Storage has [T2], the [token] cell [T1], the caller's headers an
    [Authorization] of their own: the request carries [Bearer T2]. *)
Lemma authFetch_attaches_stored_token_witness :
  ∃ hs : gmap string string,
    fetched (after (authFetch offline "/api/dashboard" callers_options) renewed_elsewhere)
      = [mkRequest "/api/dashboard"
                   (mkInit (Some "GET") (Some (PlainObject hs)) None ∅)] ∧
    hs !! "Authorization" = Some "Bearer T2" ∧
    hs !! "Accept" = Some "application/json".
Proof.
  destruct (authFetch_attaches_stored_token offline "/api/dashboard"
              callers_options renewed_elsewhere
              {[ "Authorization" := "Bearer mine"; "Accept" := "application/json" ]})
    as (hs & Hfetch & _ & Hauth & _ & Hrest); [left; reflexivity|].
  exists hs. repeat split; [exact Hfetch | |].
  - apply Hauth; [reflexivity | discriminate].
  - rewrite Hrest; [reflexivity | discriminate].
Defined.

(** C6, a counterexample: alice is signed in and the network is down.
    A caller that gives its headers as a [Headers] instance has none of
    them in the request: the headers are [Authorization] and nothing
    else. A caller that gives them as an array of pairs has the pair
    under the name [0]. A caller that spells [authorization] in lower
    case has its own value in the request beside the stored one. *)
Lemma authFetch_drops_Headers_instance :
  fetched (after (authFetch offline "/api/dashboard" instance_options) signed_in)
    = [mkRequest "/api/dashboard"
         (mkInit (Some "GET")
                 (Some (PlainObject {[ "Authorization" := "Bearer T1" ]}))
                 None ∅)] ∧
  fetched (after (authFetch offline "/api/dashboard" array_options) signed_in)
    = [mkRequest "/api/dashboard"
         (mkInit (Some "GET")
                 (Some (PlainObject {[ "Authorization" := "Bearer T1";
                                       "0" := "Accept,application/json" ]}))
                 None ∅)] ∧
  fetched (after (authFetch offline "/api/dashboard" lowercase_options) signed_in)
    = [mkRequest "/api/dashboard"
         (mkInit (Some "GET")
                 (Some (PlainObject {[ "Authorization" := "Bearer T1";
                                       "authorization" := "Bearer mine" ]}))
                 None ∅)].
Proof. vm_compute. repeat split. Qed.

(** Signed out, the request still goes out, with an empty
    [Authorization]. *)
Lemma authFetch_without_token_witness :
  ∃ hs : gmap string string,
    fetched (after (authFetch refusing "/api/dashboard" callers_options) signed_out)
      = [mkRequest "/api/dashboard"
                   (mkInit (Some "GET") (Some (PlainObject hs)) None ∅)] ∧
    hs !! "Authorization" = Some "".
Proof.
  apply (authFetch_without_token refusing "/api/dashboard" callers_options signed_out).
  reflexivity.
Defined.

(** ** [login] and [register] *)

Section Login.
Context `{Platform}.

(** C7, as amended: when the server answers [login], or [register],
    with an ok response whose body has the strings [a] and [rt] as
    [access_token] and [refresh_token] and a serialisable [user] [u], the
    operation resolves to [{ success: true }]; afterwards storage holds
    [a], [rt] and the text of [u] under the three keys, and memory holds
    [a] in [token] and [u] in [user]. The refresh token is in storage
    only. *)
Theorem login_register_success (net : Transport) (st : State)
    (r : Response) (props : list (string * value))
    (a rt : string) (u : value) (text : string)
    (name email password : string) :
  ok r = true ->
  json r = Some (VObj props) ->
  own_prop "access_token" props = VStr a ->
  own_prop "refresh_token" props = VStr rt ->
  own_prop "user" props = u ->
  JSON_stringify u = Some text ->
  (net (login_request email password) = Fulfilled r ->
   result (login net email password) st = Normal (mkResult true None) ∧
   stores_session a rt text (after (login net email password) st) ∧
   in_memory (after (login net email password) st) = (VStr a, u)) ∧
  (net (register_request name email password) = Fulfilled r ->
   result (register net name email password) st = Normal (mkResult true None) ∧
   stores_session a rt text (after (register net name email password) st) ∧
   in_memory (after (register net name email password) st) = (VStr a, u)).
Proof.
  intros Hok Hjson Ha Hrt Hu Htext.
  split; intros Hnet.
  - unfold result, after, stores_session, in_memory, login, login_request in *.
    step. rewrite Hnet, Hjson. simpl. rewrite Hok. simpl.
    unfold stringify. rewrite Ha, Hrt, Hu, Htext. simpl.
    repeat split; by simplify_map_eq.
  - unfold result, after, stores_session, in_memory, register, register_request in *.
    step. rewrite Hnet, Hjson. simpl. rewrite Hok. simpl.
    unfold stringify. rewrite Ha, Hrt, Hu, Htext. simpl.
    repeat split; by simplify_map_eq.
Qed.

Lemma failure_default (detail : value) (text : string) :
  text ≠ "" ->
  failure (mkResult false (Some (if truthy detail then detail else VStr text))).
Proof.
  intros Hne. split; [done|]. eexists; split; [done|].
  destruct (truthy detail) eqn:Hd; [done|].
  simpl. by rewrite bool_decide_eq_false_2.
Qed.


Lemma register_settles (net : Transport) (name email password : string)
    (st : State) :
  ∃ res, result (register net name email password) st = Normal res ∧
         (success res = false -> failure res).
Proof.
  assert (Hnetwork : failure (mkResult false
                       (Some (VStr "Network error. Please try again.")))).
  { split; [done|]. by eexists. }
  unfold result, register. step.
  destruct (net _) as [|r]; simpl; [by eexists|].
  destruct (json r) as [data|]; simpl; [|by eexists].
  destruct (ok r); destruct data; simpl; split_converts;
    (eexists; split; [done|]); simpl;
    first [ discriminate | intros _; exact Hnetwork
          | intros _; by apply failure_default
          | intros _; split; [done|]; by eexists ].
Qed.


Lemma register_rejected (net : Transport) (name email password : string)
    (st : State) :
  net (register_request name email password) = Rejected ->
  register net name email password st
  = (Normal (mkResult false (Some (VStr "Network error. Please try again."))),
     sent (register_request name email password) st).
Proof.
  intros Hnet. unfold register, register_request in *. step. by rewrite Hnet.
Qed.


Lemma register_refused (net : Transport) (name email password : string)
    (st : State) (r : Response) :
  net (register_request name email password) = Fulfilled r ->
  ok r = false ->
  register net name email password st
  = (Normal (mkResult false (Some (rejection_error "Registration failed" r))),
     sent (register_request name email password) st).
Proof.
  intros Hnet Hok. unfold register, register_request, rejection_error in *. step.
  rewrite Hnet. simpl.
  destruct (json r) as [data|]; simpl; [|done].
  rewrite Hok. by destruct data.
Qed.



End Login.

(** C7, a counterexample: two logins from the same state, answered with
    the same access token and user and with refresh tokens [R1] and
    [R2]. Storage tells them apart; no cell of memory does, so memory
    does not hold the triple the server returned. *)
Lemma login_memory_without_refresh_token :
  localStorage (after (@login sample (welcoming "R1") "a@b.com" "pw") signed_out)
    !! "refreshToken" = Some "R1" ∧
  localStorage (after (@login sample (welcoming "R2") "a@b.com" "pw") signed_out)
    !! "refreshToken" = Some "R2" ∧
  token (after (@login sample (welcoming "R1") "a@b.com" "pw") signed_out)
    = token (after (@login sample (welcoming "R2") "a@b.com" "pw") signed_out) ∧
  user (after (@login sample (welcoming "R1") "a@b.com" "pw") signed_out)
    = user (after (@login sample (welcoming "R2") "a@b.com" "pw") signed_out) ∧
  isLoading (after (@login sample (welcoming "R1") "a@b.com" "pw") signed_out)
    = isLoading (after (@login sample (welcoming "R2") "a@b.com" "pw") signed_out) ∧
  pushed (after (@login sample (welcoming "R1") "a@b.com" "pw") signed_out)
    = pushed (after (@login sample (welcoming "R2") "a@b.com" "pw") signed_out).
Proof. vm_compute. repeat split. Qed.

(** Alice signs in. *)
Lemma login_register_success_witness :
  result (@login sample (welcoming "R1") "a@b.com" "pw") signed_out
    = Normal (mkResult true None) ∧
  stores_session "T1" "R1" alice_text
    (after (@login sample (welcoming "R1") "a@b.com" "pw") signed_out) ∧
  in_memory (after (@login sample (welcoming "R1") "a@b.com" "pw") signed_out)
    = (VStr "T1", alice).
Proof.
  apply (proj1 (@login_register_success sample (welcoming "R1") signed_out
                  (welcome "R1")
                  [("access_token", VStr "T1"); ("refresh_token", VStr "R1");
                   ("user", alice)]
                  "T1" "R1" alice alice_text "A" "a@b.com" "pw"
                  eq_refl eq_refl eq_refl eq_refl eq_refl eq_refl));
    reflexivity.
Defined.



(** ** The mount effect *)

Section Mount.
Context `{Platform}.

(** C9, as amended: when the stored user record does not parse, the mount
    effect completes normally, clears [isLoading] and leaves [user] null.
    If a non-empty access token is stored and the record is not the empty
    string, [token] becomes the stored token and the record is removed
    from storage; if no access token is stored, or the token or the
    record is the empty string, [token] stays null and storage is left as
    it was, the record included. *)
Theorem mount_effect_corrupted_user (stored : gmap string string) (u : string) :
  stored !! "user" = Some u ->
  JSON_parse u = None ->
  result mount_effect (mounted stored) = Normal tt ∧
  isLoading (after mount_effect (mounted stored)) = false ∧
  user (after mount_effect (mounted stored)) = VNull ∧
  (∀ t, stored !! "accessToken" = Some t -> t ≠ "" -> u ≠ "" ->
        token (after mount_effect (mounted stored)) = VStr t ∧
        localStorage (after mount_effect (mounted stored)) = delete "user" stored) ∧
  (stored !! "accessToken" = None ∨ stored !! "accessToken" = Some "" ∨ u = "" ->
   token (after mount_effect (mounted stored)) = VNull ∧
   localStorage (after mount_effect (mounted stored)) = stored).
Proof.
  intros Hu Hparse.
  unfold result, after, mount_effect, mounted. step. rewrite Hu.
  destruct (stored !! "accessToken") as [t|] eqn:Ht; simpl.
  - destruct (decide (t = "")) as [->|Ht0]; [|destruct (decide (u = "")) as [->|Hu0]].
    + simpl. do 3 (split; [done|]). split; naive_solver.
    + rewrite (bool_decide_eq_false_2 _ Ht0). simpl.
      do 3 (split; [done|]). split; naive_solver.
    + rewrite (bool_decide_eq_false_2 _ Ht0), (bool_decide_eq_false_2 _ Hu0).
      simpl. rewrite Hparse. simpl.
      do 3 (split; [done|]).
      split; [by intros t' [= <-] _ _ | intros [?|[?|?]]; by simplify_eq].
  - do 3 (split; [done|]). split; naive_solver.
Qed.

End Mount.

(** C9, a counterexample: storage holds a user record that is not JSON,
    and no access token. The mount effect completes and clears the
    loading flag, and the record is still in storage. *)
Lemma mount_effect_keeps_orphan_record :
  @JSON_parse sample "{bad" = None ∧
  result (@mount_effect sample) (mounted orphan_store) = Normal tt ∧
  isLoading (after (@mount_effect sample) (mounted orphan_store)) = false ∧
  localStorage (after (@mount_effect sample) (mounted orphan_store)) !! "user"
    = Some "{bad".
Proof. vm_compute. repeat split. Qed.

(** A damaged record stored beside an access token: the token is
    restored, the record dropped. *)
Lemma mount_effect_corrupted_user_witness :
  result (@mount_effect sample) (mounted corrupted_store) = Normal tt ∧
  isLoading (after (@mount_effect sample) (mounted corrupted_store)) = false ∧
  user (after (@mount_effect sample) (mounted corrupted_store)) = VNull ∧
  token (after (@mount_effect sample) (mounted corrupted_store)) = VStr "T1" ∧
  localStorage (after (@mount_effect sample) (mounted corrupted_store))
    = delete "user" corrupted_store.
Proof.
  destruct (@mount_effect_corrupted_user sample corrupted_store "{bad")
    as (Hres & Hload & Huser & Hboth & _); [reflexivity | reflexivity |].
  destruct (Hboth "T1") as [Htok Hstore]; [reflexivity | discriminate | discriminate |].
  repeat split; assumption.
Defined.

(** ** The pairing of [token] and [user] *)

Section Pairing.
Context `{Platform}.

Lemma mount_effect_paired stored :
  sound_user stored -> paired (after mount_effect (mounted stored)).
Proof.
  intros Hsound. unfold paired, after, mount_effect, mounted. step.
  destruct (stored !! "accessToken") as [t|] eqn:Ht; simpl; [|done].
  destruct (stored !! "user") as [u|] eqn:Hu; simpl; [|done].
  destruct (decide (t = "")) as [->|Ht0]; [done|].
  destruct (decide (u = "")) as [->|Hu0].
  { simpl. by rewrite andb_false_r. }
  rewrite (bool_decide_eq_false_2 _ Ht0), (bool_decide_eq_false_2 _ Hu0). simpl.
  destruct (Hsound t u) as (v & -> & Hv); done.
Qed.

Lemma login_paired net email password st :
  answers_pair net (login_request email password) ->
  paired st -> paired (after (login net email password) st).
Proof.
  intros Hnet Hst. unfold answers_pair, login_request in Hnet.
  unfold paired, after, login in *. step.
  destruct (net _) as [|r]; simpl; [done|].
  destruct (json r) as [data|] eqn:Hjson; simpl; [|done].
  destruct (ok r) eqn:Hok; simpl.
  - specialize (Hnet r data eq_refl Hok Hjson).
    destruct data; simpl in *; split_converts; done.
  - destruct data; simpl; done.
Qed.

Lemma register_paired net name email password st :
  answers_pair net (register_request name email password) ->
  paired st -> paired (after (register net name email password) st).
Proof.
  intros Hnet Hst. unfold answers_pair, register_request in Hnet.
  unfold paired, after, register in *. step.
  destruct (net _) as [|r]; simpl; [done|].
  destruct (json r) as [data|] eqn:Hjson; simpl; [|done].
  destruct (ok r) eqn:Hok; simpl.
  - specialize (Hnet r data eq_refl Hok Hjson).
    destruct data; simpl in *; split_converts; done.
  - destruct data; simpl; done.
Qed.

Lemma refreshToken_paired net st :
  present (token st) = true ->
  answers_token net (refresh_request st) ->
  paired st -> paired (after (refreshToken net) st).
Proof.
  intros Htok Hnet Hst. unfold answers_token, refresh_request in Hnet.
  unfold paired, after, refreshToken in *. step.
  destruct (negb _); simpl; [done|].
  destruct (net _) as [|r]; simpl; [done|].
  destruct (json r) as [data|] eqn:Hjson; simpl; [|done].
  destruct (ok r) eqn:Hok; simpl; [|done].
  specialize (Hnet r data eq_refl Hok Hjson).
  destruct data; simpl in *; split_converts; congruence.
Qed.

Lemma authFetch_paired net u options st :
  paired st -> paired (after (authFetch net u options) st).
Proof.
  intros Hst. unfold paired, after, authFetch in *. step.
  destruct (net _) as [|r]; simpl; [done|].
  by case_bool_decide.
Qed.

Lemma run_paired op st :
  admissible op st -> paired st -> paired (run op st).
Proof.
  destruct op; simpl.
  - apply login_paired.
  - apply register_paired.
  - intros _ _. apply cleared_paired.
  - intros [Htok Hnet]. by apply refreshToken_paired.
  - intros _ _. apply cleared_paired.
  - intros _. apply authFetch_paired.
Qed.

(** C2, as amended: in a provider mounted over a storage whose user
    record, if it is read, parses to a value other than null, the [token]
    and [user] cells are both present or both absent after the mount
    effect and after every operation, as long as [login] and [register]
    are answered with a token and a user together and [refreshToken] is
    called with a token in memory and answered with a token. *)
Theorem reachable_paired (stored : gmap string string) (st : State) :
  sound_user stored -> reachable stored st -> paired st.
Proof.
  intros Hsound Hreach.
  induction Hreach as [|op st Hreach IH Hadm].
  - by apply mount_effect_paired.
  - by apply run_paired.
Qed.

End Pairing.

(** C2, a counterexample: a provider mounts over a storage whose user
    record is damaged. The mount effect leaves [token] set and [user]
    null, and in storage the access token without a user record. On the
    next load, over the storage so left, both cells are null, and a
    successful [refreshToken] then sets [token] while [user] stays
    null. *)
Lemma mount_effect_token_without_user :
  @JSON_parse sample "{bad" = None ∧
  token (after (@mount_effect sample) (mounted corrupted_store)) = VStr "T1" ∧
  user (after (@mount_effect sample) (mounted corrupted_store)) = VNull ∧
  localStorage (after (@mount_effect sample) (mounted corrupted_store)) !! "accessToken"
    = Some "T1" ∧
  localStorage (after (@mount_effect sample) (mounted corrupted_store)) !! "user"
    = None ∧
  token (after (@refreshToken sample renewing)
           (after (@mount_effect sample)
              (mounted (localStorage
                 (after (@mount_effect sample) (mounted corrupted_store))))))
    = VStr "T2" ∧
  user (after (@refreshToken sample renewing)
          (after (@mount_effect sample)
             (mounted (localStorage
                (after (@mount_effect sample) (mounted corrupted_store))))))
    = VNull.
Proof. vm_compute. repeat split. Qed.

(** Alice's browser is reloaded, and her token then renewed. *)
Lemma reachable_paired_witness :
  paired (@run sample (OpRefreshToken renewing)
            (after (@mount_effect sample) (mounted session_store))).
Proof.
  apply (@reachable_paired sample session_store).
  - intros t u _ _ Hu _. vm_compute in Hu. injection Hu as <-.
    exists alice. split; reflexivity.
  - apply reach_step; [apply reach_mount|].
    split; [reflexivity|].
    intros r data Hnet _ Hjson. injection Hnet as <-.
    injection Hjson as <-. reflexivity.
Defined.

(** * Further properties of the provider *)

Lemma after_logout st : after logout st = cleared st.
Proof. reflexivity. Qed.

Section Lifecycle.
Context `{Platform}.

(** X1: over a storage that holds a non-empty access token and a user
    record that parses, the mount effect restores both into memory,
    clears [isLoading], and touches neither storage nor the router nor
    the network. *)
Theorem mount_effect_restores_session (stored : gmap string string)
    (t u : string) (v : value) :
  stored !! "accessToken" = Some t -> t ≠ "" ->
  stored !! "user" = Some u -> u ≠ "" ->
  JSON_parse u = Some v ->
  mount_effect (mounted stored)
  = (Normal tt, mkState stored v (VStr t) false [] []).
Proof.
  intros Ht Ht0 Hu Hu0 Hparse.
  unfold mount_effect, mounted. step. rewrite Ht, Hu. simpl.
  rewrite (bool_decide_eq_false_2 _ Ht0), (bool_decide_eq_false_2 _ Hu0). simpl.
  by rewrite Hparse.
Qed.

(** X2: when the access token or the user record is missing from storage,
    or is the empty string, the mount effect restores nothing: both cells
    stay null, whatever the other key holds, and storage is untouched. *)
Theorem mount_effect_needs_both (stored : gmap string string) :
  truthy (item (stored !! "accessToken")) && truthy (item (stored !! "user")) = false ->
  mount_effect (mounted stored)
  = (Normal tt, mkState stored VNull VNull false [] []).
Proof.
  intros Hboth. unfold mount_effect, mounted. step.
  destruct (stored !! "accessToken") as [t|]; [|done].
  destruct (stored !! "user") as [u|]; [|done].
  simpl in *. by rewrite Hboth.
Qed.

(** X3: after [logout], or [handleUnauthorized], from any state, a
    provider mounted over the storage left finds no session: both cells
    null, [isAuthenticated] false, none of the three keys in storage. *)
Theorem logout_then_mount (st : State) :
  after logout st = after handleUnauthorized st ∧
  no_session (after mount_effect (mounted (localStorage (after logout st)))) ∧
  isAuthenticated (after mount_effect (mounted (localStorage (after logout st))))
    = false ∧
  isLoading (after mount_effect (mounted (localStorage (after logout st)))) = false.
Proof.
  split; [done|].
  rewrite after_logout.
  destruct (cleared_no_session st) as (Ha & Hr & Hu & _).
  assert (Hrun : mount_effect (mounted (localStorage (cleared st)))
                 = (Normal tt,
                    mkState (localStorage (cleared st)) VNull VNull false [] [])).
  { apply mount_effect_needs_both. by rewrite Ha. }
  unfold after. rewrite Hrun. by repeat split.
Qed.

(** X4: a session written by [login] survives a reload. When the answer
    carries a non-empty access token [a] and a user [u] whose text reads
    back as [u], a provider mounted over the storage [login] left has [a]
    in [token] and [u] in [user], and is authenticated. *)
Theorem login_then_mount (net : Transport) (st : State)
    (r : Response) (props : list (string * value))
    (a rt : string) (u : value) (text : string) (email password : string) :
  net (login_request email password) = Fulfilled r ->
  ok r = true ->
  json r = Some (VObj props) ->
  own_prop "access_token" props = VStr a ->
  own_prop "refresh_token" props = VStr rt ->
  own_prop "user" props = u ->
  JSON_stringify u = Some text ->
  JSON_parse text = Some u ->
  a ≠ "" -> text ≠ "" ->
  token (after mount_effect
           (mounted (localStorage (after (login net email password) st)))) = VStr a ∧
  user (after mount_effect
          (mounted (localStorage (after (login net email password) st)))) = u ∧
  isAuthenticated (after mount_effect
          (mounted (localStorage (after (login net email password) st)))) = true.
Proof.
  intros Hnet Hok Hjson Ha Hrt Hu Htext Hparse Ha0 Htext0.
  assert (Hrun : mount_effect (mounted (localStorage (after (login net email password) st)))
                 = (Normal tt,
                    mkState (localStorage (after (login net email password) st))
                            u (VStr a) false [] [])).
  { apply (mount_effect_restores_session _ a text u); try done.
    - unfold after, login, login_request in *. step.
      rewrite Hnet, Hjson. simpl. rewrite Hok. simpl.
      unfold stringify. rewrite Ha, Hrt, Hu, Htext. simpl. by simplify_map_eq.
    - unfold after, login, login_request in *. step.
      rewrite Hnet, Hjson. simpl. rewrite Hok. simpl.
      unfold stringify. rewrite Ha, Hrt, Hu, Htext. simpl. by simplify_map_eq. }
  unfold after at 1 3 5. rewrite Hrun. simpl.
  repeat split. unfold isAuthenticated. simpl. by rewrite bool_decide_eq_false_2.
Qed.

(** X5: [logout] touches only the three session keys of storage, the two
    cells and the router: every other key, the loading flag and the
    [fetch] log are as before; and a second [logout] changes nothing
    more than the navigation log. *)
Theorem logout_frame (st : State) :
  (∀ k, k ≠ "accessToken" -> k ≠ "refreshToken" -> k ≠ "user" ->
        localStorage (after logout st) !! k = localStorage st !! k) ∧
  isLoading (after logout st) = isLoading st ∧
  fetched (after logout st) = fetched st ∧
  localStorage (after logout (after logout st)) = localStorage (after logout st) ∧
  in_memory (after logout (after logout st)) = in_memory (after logout st) ∧
  pushed (after logout (after logout st)) = pushed st ++ ["/"; "/"].
Proof.
  rewrite !after_logout. unfold cleared. simpl.
  split; [intros k ? ? ?; by simplify_map_eq|].
  do 2 (split; [done|]).
  split.
  - apply map_eq. intros k.
    destruct (decide (k = "user")) as [->|]; [by simplify_map_eq|].
    destruct (decide (k = "refreshToken")) as [->|]; [by simplify_map_eq|].
    destruct (decide (k = "accessToken")) as [->|]; by simplify_map_eq.
  - split; [done|]. by rewrite <- app_assoc.
Qed.

End Lifecycle.

(** Alice's browser is reloaded. *)
Lemma mount_effect_restores_session_witness :
  @mount_effect sample (mounted session_store)
  = (Normal tt, mkState session_store alice (VStr "T1") false [] []).
Proof.
  apply (@mount_effect_restores_session sample session_store "T1" alice_text alice);
    first [ reflexivity | discriminate ].
Defined.

(** A user record without an access token. *)
Lemma mount_effect_needs_both_witness :
  @mount_effect sample (mounted orphan_store)
  = (Normal tt, mkState orphan_store VNull VNull false [] []).
Proof.
  apply (@mount_effect_needs_both sample orphan_store). reflexivity.
Defined.

(** Alice signs in and reloads. *)
Lemma login_then_mount_witness :
  token (after (@mount_effect sample)
           (mounted (localStorage
              (after (@login sample (welcoming "R1") "a@b.com" "pw") signed_out))))
    = VStr "T1" ∧
  user (after (@mount_effect sample)
          (mounted (localStorage
             (after (@login sample (welcoming "R1") "a@b.com" "pw") signed_out))))
    = alice ∧
  isAuthenticated (after (@mount_effect sample)
          (mounted (localStorage
             (after (@login sample (welcoming "R1") "a@b.com" "pw") signed_out))))
    = true.
Proof.
  apply (@login_then_mount sample (welcoming "R1") signed_out (welcome "R1")
           [("access_token", VStr "T1"); ("refresh_token", VStr "R1"); ("user", alice)]
           "T1" "R1" alice alice_text "a@b.com" "pw");
    first [ reflexivity | discriminate ].
Defined.

(** ** Answers that are not the expected ones *)

Section Answers.
Context `{Platform}.

(** X6: a response with any status other than 401 (403 or 500, say) is
    handed back by [authFetch] with the session left alone: nothing is
    removed from storage, the cells keep their values and nothing is
    pushed to the router. *)
Theorem authFetch_other_status (net : Transport) (u : string)
    (options : RequestInit) (st : State) (r : Response) :
  net (auth_request st u options) = Fulfilled r ->
  status r ≠ 401 ->
  authFetch net u options st
  = (Normal r, sent (auth_request st u options) st).
Proof.
  intros Hnet Hstatus. unfold authFetch, auth_request in *. step.
  rewrite Hnet. simpl. by rewrite bool_decide_eq_false_2.
Qed.

(** X7: [authFetch] does not catch: when [fetch] rejects, [authFetch]
    rejects with the same failure, and the session is left alone. *)
Theorem authFetch_network_failure (net : Transport) (u : string)
    (options : RequestInit) (st : State) :
  net (auth_request st u options) = Rejected ->
  authFetch net u options st
  = (Throw NetworkFailure, sent (auth_request st u options) st).
Proof.
  intros Hnet. unfold authFetch, auth_request in *. step. by rewrite Hnet.
Qed.

(** X8: [refreshToken] calls [fetch] exactly when storage holds a
    non-empty refresh token, and then once, with [refresh_request]; a
    refresh token stored as the empty string counts as none, and the
    call returns false with the state untouched. *)
Theorem refreshToken_fetches (net : Transport) (st : State) :
  fetched (after (refreshToken net) st)
  = (if truthy (item (localStorage st !! "refreshToken"))
     then fetched st ++ [refresh_request st]
     else fetched st) ∧
  (localStorage st !! "refreshToken" = Some "" ->
   refreshToken net st = (Normal false, st)).
Proof.
  split.
  - unfold after, refreshToken, refresh_request. step.
    destruct (truthy _); simpl; [|done].
    destruct (net _) as [|r]; simpl; [done|].
    destruct (json r) as [data|]; simpl; [|done].
    destruct (ok r); simpl; [|done].
    destruct data; simpl; split_converts; done.
  - intros Hempty. unfold refreshToken. step. by rewrite Hempty.
Qed.

(** X9: when the body of the answer is not JSON, whatever the status,
    [refreshToken] returns false and leaves the session alone, a 401
    included; the same holds for an ok answer whose body is [null]. *)
Theorem refreshToken_unreadable_body (net : Transport) (st : State) (r : Response) :
  truthy (item (localStorage st !! "refreshToken")) = true ->
  net (refresh_request st) = Fulfilled r ->
  json r = None ∨ (json r = Some VNull ∧ ok r = true) ->
  refreshToken net st = (Normal false, sent (refresh_request st) st).
Proof.
  intros Hrt Hnet Hbody. unfold refreshToken, refresh_request in *. step.
  rewrite Hrt. simpl. rewrite Hnet. simpl.
  destruct Hbody as [-> | [-> ->]]; done.
Qed.

(** X10: an answer to [login] or [register] whose body is not JSON, or is
    [null], is reported as a network error, whatever its status, and
    nothing is written. *)
Theorem login_register_unreadable_body (net : Transport) (st : State)
    (r : Response) (name email password : string) :
  json r = None ∨ json r = Some VNull ->
  (net (login_request email password) = Fulfilled r ->
   login net email password st
   = (Normal (mkResult false (Some (VStr "Network error. Please try again."))),
      sent (login_request email password) st)) ∧
  (net (register_request name email password) = Fulfilled r ->
   register net name email password st
   = (Normal (mkResult false (Some (VStr "Network error. Please try again."))),
      sent (register_request name email password) st)).
Proof.
  intros Hbody. split; intros Hnet.
  - unfold login, login_request in *. step. rewrite Hnet. simpl.
    destruct Hbody as [-> | ->]; simpl; [done|]. by destruct (ok r).
  - unfold register, register_request in *. step. rewrite Hnet. simpl.
    destruct Hbody as [-> | ->]; simpl; [done|]. by destruct (ok r).
Qed.

(** What [JSON.stringify] returns converts: it is a string or
    [undefined]. *)
Lemma converts_stringify (v : value) : converts (stringify v) = true.
Proof. unfold stringify. by destruct (JSON_stringify v). Qed.

(** X11: what an ok answer with a JSON body other than [null] makes of
    [login] and [register] is decided by the string conversions of
    [setItem], whatever members the body has. When [access_token] and
    [refresh_token] convert, the operation reports success: the three
    keys receive the conversions of [access_token], [refresh_token] and
    the serialised [user], and the cells the members themselves (for a
    body without them, the text ["undefined"] goes to storage and
    [undefined] to the cells). When [access_token] does not convert,
    the operation reports the network failure and nothing is written.
    When [access_token] converts and [refresh_token] does not, it
    reports the network failure with the access token already written
    to storage, and the cells as they were. *)
Theorem login_register_any_body (net : Transport) (st : State)
    (r : Response) (data : value) (name email password : string) :
  ok r = true ->
  json r = Some data ->
  present data = true ->
  (net (login_request email password) = Fulfilled r ->
   (converts (member data "access_token") = true ->
    converts (member data "refresh_token") = true ->
    result (login net email password) st = Normal (mkResult true None) ∧
    localStorage (after (login net email password) st)
    = <["user" := ToString (stringify (member data "user"))]>
        (<["refreshToken" := ToString (member data "refresh_token")]>
           (<["accessToken" := ToString (member data "access_token")]>
              (localStorage st))) ∧
    in_memory (after (login net email password) st)
    = (member data "access_token", member data "user")) ∧
   (converts (member data "access_token") = false ->
    login net email password st
    = (Normal (mkResult false (Some (VStr "Network error. Please try again."))),
       sent (login_request email password) st)) ∧
   (converts (member data "access_token") = true ->
    converts (member data "refresh_token") = false ->
    result (login net email password) st
    = Normal (mkResult false (Some (VStr "Network error. Please try again."))) ∧
    localStorage (after (login net email password) st)
    = <["accessToken" := ToString (member data "access_token")]> (localStorage st) ∧
    in_memory (after (login net email password) st) = in_memory st)) ∧
  (net (register_request name email password) = Fulfilled r ->
   (converts (member data "access_token") = true ->
    converts (member data "refresh_token") = true ->
    result (register net name email password) st = Normal (mkResult true None) ∧
    localStorage (after (register net name email password) st)
    = <["user" := ToString (stringify (member data "user"))]>
        (<["refreshToken" := ToString (member data "refresh_token")]>
           (<["accessToken" := ToString (member data "access_token")]>
              (localStorage st))) ∧
    in_memory (after (register net name email password) st)
    = (member data "access_token", member data "user")) ∧
   (converts (member data "access_token") = false ->
    register net name email password st
    = (Normal (mkResult false (Some (VStr "Network error. Please try again."))),
       sent (register_request name email password) st)) ∧
   (converts (member data "access_token") = true ->
    converts (member data "refresh_token") = false ->
    result (register net name email password) st
    = Normal (mkResult false (Some (VStr "Network error. Please try again."))) ∧
    localStorage (after (register net name email password) st)
    = <["accessToken" := ToString (member data "access_token")]> (localStorage st) ∧
    in_memory (after (register net name email password) st) = in_memory st)).
Proof.
  intros Hok Hjson Hdata. split; intros Hnet.
  - unfold result, after, in_memory, login, login_request in *. step.
    rewrite Hnet, Hjson. simpl. rewrite Hok. simpl.
    destruct data; simpl in *; try discriminate;
      rewrite ?converts_stringify; simpl;
      (split; [|split]); intros Ha; try intros Hrt;
      rewrite ?Ha; simpl; rewrite ?Hrt; simpl; try discriminate; done.
  - unfold result, after, in_memory, register, register_request in *. step.
    rewrite Hnet, Hjson. simpl. rewrite Hok. simpl.
    destruct data; simpl in *; try discriminate;
      rewrite ?converts_stringify; simpl;
      (split; [|split]); intros Ha; try intros Hrt;
      rewrite ?Ha; simpl; rewrite ?Hrt; simpl; try discriminate; done.
Qed.

(** X12: when the server turns [login] or [register] down with a JSON
    body other than [null], the [error] of the result is the body's
    [detail] as it is, even when it is not a string, and, when [detail]
    is missing or falsy, ["Invalid email or password"] for [login] and
    ["Registration failed"] for [register]. *)
Theorem login_register_rejection_message (net : Transport) (st : State)
    (r : Response) (data : value) (name email password : string) :
  ok r = false ->
  json r = Some data ->
  present data = true ->
  (net (login_request email password) = Fulfilled r ->
   result (login net email password) st
   = Normal (mkResult false
               (Some (if truthy (member data "detail") then member data "detail"
                      else VStr "Invalid email or password")))) ∧
  (net (register_request name email password) = Fulfilled r ->
   result (register net name email password) st
   = Normal (mkResult false
               (Some (if truthy (member data "detail") then member data "detail"
                      else VStr "Registration failed")))).
Proof.
  intros Hok Hjson Hdata. split; intros Hnet.
  - unfold result, login, login_request in *. step.
    rewrite Hnet, Hjson. simpl. rewrite Hok. simpl.
    destruct data; simpl in *; done.
  - unfold result, register, register_request in *. step.
    rewrite Hnet, Hjson. simpl. rewrite Hok. simpl.
    destruct data; simpl in *; done.
Qed.

End Answers.

(** The server answers alice's request with 403. *)
Lemma authFetch_other_status_witness :
  authFetch forbidding "/api/transactions" callers_options signed_in
  = (Normal forbidden,
     sent (auth_request signed_in "/api/transactions" callers_options) signed_in).
Proof.
  apply (authFetch_other_status forbidding "/api/transactions" callers_options
           signed_in forbidden); [reflexivity | discriminate].
Defined.

(** The network is down under alice's request. *)
Lemma authFetch_network_failure_witness :
  authFetch offline "/api/transactions" callers_options signed_in
  = (Throw NetworkFailure,
     sent (auth_request signed_in "/api/transactions" callers_options) signed_in).
Proof.
  apply (authFetch_network_failure offline "/api/transactions" callers_options
           signed_in). reflexivity.
Defined.

(** A proxy answers alice's renewal with a 502 page. *)
Lemma refreshToken_unreadable_body_witness :
  @refreshToken sample failing_gateway signed_in
  = (Normal false, sent (@refresh_request sample signed_in) signed_in).
Proof.
  apply (@refreshToken_unreadable_body sample failing_gateway signed_in bad_gateway);
    [reflexivity | reflexivity | left; reflexivity].
Defined.

(** A proxy answers a login with a 502 page. *)
Lemma login_register_unreadable_body_witness :
  @login sample failing_gateway "a@b.com" "pw" signed_out
  = (Normal (mkResult false (Some (VStr "Network error. Please try again."))),
     sent (@login_request sample "a@b.com" "pw") signed_out).
Proof.
  apply (proj1 (@login_register_unreadable_body sample failing_gateway signed_out
                  bad_gateway "A" "a@b.com" "pw" (or_introl eq_refl))).
  reflexivity.
Defined.

(** The server answers a login with 200 and an empty object. *)
Lemma login_register_any_body_witness :
  result (@login sample hollowing "a@b.com" "pw") signed_out
    = Normal (mkResult true None) ∧
  localStorage (after (@login sample hollowing "a@b.com" "pw") signed_out)
    = {[ "accessToken" := "undefined"; "refreshToken" := "undefined";
         "user" := "undefined" ]} ∧
  in_memory (after (@login sample hollowing "a@b.com" "pw") signed_out)
    = (VUndefined, VUndefined).
Proof.
  destruct (proj1 (proj1 (@login_register_any_body sample hollowing signed_out hollow
                            (VObj []) "A" "a@b.com" "pw" eq_refl eq_refl eq_refl)
                         eq_refl) eq_refl eq_refl)
    as (Hres & Hstore & Hmem).
  split; [exact Hres|]. split; [|exact Hmem].
  rewrite Hstore. apply map_eq. intros k. vm_compute. reflexivity.
Defined.

(** FastAPI turns a registration down with a list of validation
    errors. *)
Lemma login_register_rejection_message_witness :
  result (@register sample rejecting_input "A" "a@b" "pw") signed_out
  = Normal (mkResult false
              (Some (VArr [VObj [("msg", VStr "value is not a valid email address")]]))).
Proof.
  apply (proj2 (@login_register_rejection_message sample rejecting_input signed_out
                  unprocessable
                  (VObj [("detail",
                          VArr [VObj [("msg", VStr "value is not a valid email address")]])])
                  "A" "a@b" "pw" eq_refl eq_refl eq_refl)).
  reflexivity.
Defined.

(** * Properties of the pages *)

Section Guards.
Context `{Platform}.

(** X13: a guarded page shows the spinner until the provider has mounted
    and pushes nothing. Once it has, the page shows its content exactly
    when storage held a non-empty access token and a non-empty user
    record, whether or not that record parses; otherwise it shows nothing
    and pushes ["/login"]. *)
Theorem guard_after_mount (stored : gmap string string) :
  AuthenticatedComponent_render (mounted stored) = Spinner ∧
  pushed (after AuthenticatedComponent_effect (mounted stored)) = [] ∧
  AuthenticatedComponent_render (after mount_effect (mounted stored))
  = (if truthy (item (stored !! "accessToken")) && truthy (item (stored !! "user"))
     then Content else Nothing) ∧
  pushed (after AuthenticatedComponent_effect (after mount_effect (mounted stored)))
  = (if truthy (item (stored !! "accessToken")) && truthy (item (stored !! "user"))
     then [] else ["/login"]).
Proof.
  do 2 (split; [done|]).
  unfold after, AuthenticatedComponent_render, AuthenticatedComponent_effect,
    isAuthenticated, mount_effect, mounted. step.
  destruct (stored !! "accessToken") as [t|]; simpl; [|done].
  destruct (stored !! "user") as [u|]; simpl; [|by rewrite andb_false_r].
  destruct (decide (t = "")) as [->|Ht0]; [done|].
  rewrite (bool_decide_eq_false_2 _ Ht0). simpl.
  destruct (bool_decide (u = "")); simpl; [done|].
  destruct (JSON_parse u); simpl; by rewrite (bool_decide_eq_false_2 _ Ht0).
Qed.

End Guards.

(** X14: after [logout], or [handleUnauthorized], a guarded page never
    shows its content; once the provider has loaded it shows nothing and
    its effect pushes ["/login"] after the ["/"] that [logout] pushed. *)
Theorem guard_after_logout (st : State) :
  AuthenticatedComponent_render (after logout st)
  = (if isLoading st then Spinner else Nothing) ∧
  AuthenticatedComponent_render (after handleUnauthorized st)
  = (if isLoading st then Spinner else Nothing) ∧
  pushed (after AuthenticatedComponent_effect (after logout st))
  = pushed st ++ (if isLoading st then ["/"] else ["/"; "/login"]).
Proof.
  unfold after, AuthenticatedComponent_render, AuthenticatedComponent_effect,
    isAuthenticated.
  rewrite logout_run, handleUnauthorized_run. simpl.
  destruct (isLoading st); simpl; [done|].
  by rewrite <- app_assoc.
Qed.

(** X15: [Home] and the provider decide differently over a storage that
    has a non-empty access token and no user record, or an empty one:
    [Home] counts the visitor as signed in and [handleGetStarted] pushes
    ["/dashboard"], where the provider restores nothing and the guard of
    the dashboard pushes ["/login"]. *)
Theorem Home_and_guard_disagree `{Platform} (stored : gmap string string) :
  truthy (item (stored !! "accessToken")) = true ->
  truthy (item (stored !! "user")) = false ->
  pushed (after (handleGetStarted (Home_isAuthenticated (mounted stored)))
                (mounted stored)) = ["/dashboard"] ∧
  isAuthenticated (after mount_effect (mounted stored)) = false ∧
  pushed (after AuthenticatedComponent_effect (after mount_effect (mounted stored)))
  = ["/login"].
Proof.
  intros Htok Huser.
  assert (Hrun : mount_effect (mounted stored)
                 = (Normal tt, mkState stored VNull VNull false [] [])).
  { apply mount_effect_needs_both. by rewrite Htok, Huser. }
  unfold after. rewrite Hrun.
  unfold Home_isAuthenticated, handleGetStarted. simpl. by rewrite Htok.
Qed.

(** X16: [Home] and the provider agree after [logout] (neither sees a
    session, and [handleGetStarted] pushes ["/login"]) and after a
    [login] answered with a non-empty access token and a refresh token
    that converts to a string (both see a session). When the refresh
    token does not convert, [login] fails after it has written the
    access token: [Home] sees a session and the provider's [token] is
    what it was. *)
Theorem Home_agrees_after_login_logout `{Platform} (net : Transport) (st : State)
    (r : Response) (props : list (string * value)) (a : string)
    (email password : string) :
  (Home_isAuthenticated (after logout st) = false ∧
   isAuthenticated (after logout st) = false ∧
   pushed (after (handleGetStarted (Home_isAuthenticated (after logout st)))
                 (after logout st)) = pushed st ++ ["/"; "/login"]) ∧
  (net (login_request email password) = Fulfilled r ->
   ok r = true ->
   json r = Some (VObj props) ->
   own_prop "access_token" props = VStr a ->
   a ≠ "" ->
   (converts (own_prop "refresh_token" props) = true ->
    Home_isAuthenticated (after (login net email password) st) = true ∧
    isAuthenticated (after (login net email password) st) = true) ∧
   (converts (own_prop "refresh_token" props) = false ->
    Home_isAuthenticated (after (login net email password) st) = true ∧
    token (after (login net email password) st) = token st)).
Proof.
  split.
  - rewrite after_logout.
    destruct (cleared_no_session st) as (Ha & _).
    unfold Home_isAuthenticated, isAuthenticated, handleGetStarted, after.
    rewrite Ha. simpl. by rewrite <- app_assoc.
  - intros Hnet Hok Hjson Ha Ha0.
    unfold Home_isAuthenticated, isAuthenticated, after, login, login_request in *.
    step. rewrite Hnet, Hjson. simpl. rewrite Hok. simpl. rewrite Ha. simpl.
    rewrite converts_stringify.
    split; intros Hrt; rewrite Hrt; simpl.
    + rewrite lookup_insert_ne by done. rewrite lookup_insert_ne by done.
      rewrite lookup_insert_eq. simpl.
      by rewrite (bool_decide_eq_false_2 _ Ha0).
    + rewrite lookup_insert_eq. simpl.
      by rewrite (bool_decide_eq_false_2 _ Ha0).
Qed.

(** Alice signs in: [Home] and the provider both see her session. *)
Lemma Home_agrees_after_login_logout_witness :
  Home_isAuthenticated (after (@login sample (welcoming "R1") "a@b.com" "pw") signed_out)
    = true ∧
  isAuthenticated (after (@login sample (welcoming "R1") "a@b.com" "pw") signed_out)
    = true.
Proof.
  apply (@Home_agrees_after_login_logout sample (welcoming "R1") signed_out
           (welcome "R1")
           [("access_token", VStr "T1"); ("refresh_token", VStr "R1");
            ("user", alice)]
           "T1" "a@b.com" "pw");
    first [ reflexivity | discriminate ].
Defined.

(** What is left in storage after the mount over a damaged record. *)
Lemma Home_and_guard_disagree_witness :
  pushed (after (handleGetStarted
                   (Home_isAuthenticated (mounted (delete "user" corrupted_store))))
                (mounted (delete "user" corrupted_store))) = ["/dashboard"] ∧
  isAuthenticated (after (@mount_effect sample)
                     (mounted (delete "user" corrupted_store))) = false ∧
  pushed (after AuthenticatedComponent_effect
            (after (@mount_effect sample) (mounted (delete "user" corrupted_store))))
  = ["/login"].
Proof.
  apply (@Home_and_guard_disagree sample (delete "user" corrupted_store));
    reflexivity.
Defined.

(** ** The registration form *)

Section RegisterForm.
Context `{Platform}.

(** X17: [handleSubmit] validates before it calls the provider. When the
    two passwords differ, or the password has fewer than 6 characters, it
    shows the matching message and stops: [register] is not called, so no
    request is made, nothing is stored and nothing is replaced in the
    router. The mismatch is reported first. *)
Theorem handleSubmit_validation (net : Transport)
    (name email password confirmPassword : string) (pg : RegisterPage) :
  password ≠ confirmPassword ∨ (String.length password < 6)%nat ->
  auth (handleSubmit net name email password confirmPassword pg) = auth pg ∧
  replaced (handleSubmit net name email password confirmPassword pg) = replaced pg ∧
  submitting (handleSubmit net name email password confirmPassword pg)
    = submitting pg ∧
  shown (handleSubmit net name email password confirmPassword pg)
    = VStr (if bool_decide (password = confirmPassword)
            then "Password must be at least 6 characters"
            else "Passwords do not match").
Proof.
  intros Hbad. unfold handleSubmit. simpl.
  case_bool_decide as Heq; simpl; [|done].
  destruct Hbad as [Hne | Hshort]; [done|].
  apply Nat.ltb_lt in Hshort. by rewrite Hshort.
Qed.

(** X18: with matching passwords of 6 characters or more, [handleSubmit]
    calls [register] once, and the provider is left as [register] leaves
    it. If the result is a success the page replaces the route by
    ["/dashboard"] and its error cell stays empty; otherwise it replaces
    nothing, stops the spinner and puts the result's [error] in its
    error cell as it is, a truthy value that need not be a text. When
    the failure is a rejected [fetch] or an answer that is not ok, the
    session is as it was. *)
Theorem handleSubmit_outcome (net : Transport)
    (name email password : string) (pg : RegisterPage) :
  (6 <= String.length password)%nat ->
  ∃ res,
    result (register net name email password) (auth pg) = Normal res ∧
    auth (handleSubmit net name email password password pg)
      = after (register net name email password) (auth pg) ∧
    (success res = true ->
     replaced (handleSubmit net name email password password pg)
       = replaced pg ++ ["/dashboard"] ∧
     shown (handleSubmit net name email password password pg) = VStr "") ∧
    (success res = false ->
     replaced (handleSubmit net name email password password pg) = replaced pg ∧
     submitting (handleSubmit net name email password password pg) = false ∧
     error res = Some (shown (handleSubmit net name email password password pg)) ∧
     truthy (shown (handleSubmit net name email password password pg)) = true) ∧
    (net (register_request name email password) = Rejected
     ∨ (∃ r, net (register_request name email password) = Fulfilled r ∧ ok r = false) ->
     success res = false ∧
     same_but_fetched (auth pg)
       (auth (handleSubmit net name email password password pg))).
Proof.
  intros Hlen.
  destruct (register_settles net name email password (auth pg))
    as (res & Hres & Hfail).
  exists res. split; [exact Hres|].
  unfold result in Hres.
  destruct (register net name email password (auth pg)) as [c st'] eqn:Hrun.
  simpl in Hres. subst c.
  assert (Hauth : auth (handleSubmit net name email password password pg) = st').
  { unfold handleSubmit. simpl.
    rewrite bool_decide_eq_true_2 by done. simpl.
    apply Nat.ltb_ge in Hlen. rewrite Hlen, Hrun. simpl.
    by destruct (success res). }
  rewrite Hauth. unfold after. rewrite Hrun. simpl.
  split; [done|].
  unfold handleSubmit. simpl.
  rewrite bool_decide_eq_true_2 by done. simpl.
  apply Nat.ltb_ge in Hlen. rewrite Hlen, Hrun. simpl.
  split; [by intros ->|]. split.
  - intros Hs. rewrite Hs. simpl.
    destruct (Hfail Hs) as [_ (msg & Hmsg & Htruthy)].
    rewrite Hmsg. simpl. by rewrite Htruthy.
  - intros [Hnet | (r & Hnet & Hok)].
    + rewrite (register_rejected _ _ _ _ _ Hnet) in Hrun.
      injection Hrun as <- <-. split; [done | apply sent_same].
    + rewrite (register_refused _ _ _ _ _ _ Hnet Hok) in Hrun.
      injection Hrun as <- <-. split; [done | apply sent_same].
Qed.

End RegisterForm.

(** Two passwords that differ. *)
Lemma handleSubmit_validation_witness :
  auth (@handleSubmit sample (welcoming "R1") "A" "a@b.com" "secret1" "secret2"
          (mkRegisterPage (VStr "") false [] signed_out)) = signed_out ∧
  replaced (@handleSubmit sample (welcoming "R1") "A" "a@b.com" "secret1" "secret2"
              (mkRegisterPage (VStr "") false [] signed_out)) = [] ∧
  submitting (@handleSubmit sample (welcoming "R1") "A" "a@b.com" "secret1" "secret2"
                (mkRegisterPage (VStr "") false [] signed_out)) = false ∧
  shown (@handleSubmit sample (welcoming "R1") "A" "a@b.com" "secret1" "secret2"
           (mkRegisterPage (VStr "") false [] signed_out))
    = VStr "Passwords do not match".
Proof.
  apply (@handleSubmit_validation sample (welcoming "R1") "A" "a@b.com"
           "secret1" "secret2" (mkRegisterPage (VStr "") false [] signed_out)).
  left. discriminate.
Defined.

(** Alice registers with a password of six characters. *)
Lemma handleSubmit_outcome_witness :
  ∃ res,
    result (@register sample (welcoming "R1") "A" "a@b.com" "secret") signed_out
      = Normal res ∧
    success res = true ∧
    replaced (@handleSubmit sample (welcoming "R1") "A" "a@b.com" "secret" "secret"
                (mkRegisterPage (VStr "") false [] signed_out)) = ["/dashboard"].
Proof.
  destruct (@handleSubmit_outcome sample (welcoming "R1") "A" "a@b.com" "secret"
              (mkRegisterPage (VStr "") false [] signed_out))
    as (res & Hres & _ & Hok & _); [simpl; lia|].
  exists res. split; [exact Hres|].
  assert (Hs : success res = true).
  { vm_compute in Hres. injection Hres as <-. reflexivity. }
  split; [exact Hs|]. apply Hok, Hs.
Defined.

(** ** The navigation of the dashboard *)

Lemma prefix_empty (s : string) : String.prefix "" s = true.
Proof. by destruct s. Qed.

(** Two prefixes of one string: one is a prefix of the other. *)
Lemma prefix_comparable (a b p : string) :
  String.prefix a p = true -> String.prefix b p = true ->
  String.prefix a b = true ∨ String.prefix b a = true.
Proof.
  revert a b. induction p as [|c p IH]; intros a b Ha Hb.
  - destruct a; [left; apply prefix_empty|]. discriminate.
  - destruct a as [|x a]; [left; apply prefix_empty|].
    destruct b as [|y b]; [right; apply prefix_empty|].
    simpl in *.
    destruct (Ascii.ascii_dec x c) as [->|]; [|discriminate].
    destruct (Ascii.ascii_dec y c) as [->|]; [|discriminate].
    destruct (Ascii.ascii_dec c c); [|done].
    by apply IH.
Qed.

Lemma prefix_append (h rest : string) : String.prefix h (h +:+ rest) = true.
Proof.
  induction h as [|c h IH]; simpl; [apply prefix_empty|].
  by destruct (Ascii.ascii_dec c c).
Qed.

Lemma isActive_section (p h : string) :
  h ≠ "/dashboard" -> isActive p h = String.prefix h p.
Proof. intros Hne. unfold isActive. by rewrite bool_decide_eq_false_2. Qed.

(** Closes a case in which two different entries are both active. *)
Ltac clash H1 H2 :=
  exfalso; destruct (prefix_comparable _ _ _ H1 H2) as [Hc|Hc];
  vm_compute in Hc; discriminate Hc.

(** X19: on every path at most one entry of the navigation is shown as
    active, in the layout with four entries and in the one with two. *)
Theorem isActive_at_most_one (pathname : string) :
  (length (List.filter (isActive pathname) navItems) <= 1)%nat ∧
  (length (List.filter (isActive pathname) navItems_compact) <= 1)%nat.
Proof.
  destruct (decide (pathname = "/dashboard")) as [->|Hroot].
  { split; vm_compute; lia. }
  assert (Hr : isActive pathname "/dashboard" = false).
  { unfold isActive. rewrite (bool_decide_eq_true_2 ("/dashboard" = "/dashboard")) by done.
    by apply bool_decide_eq_false_2. }
  unfold navItems, navItems_compact. simpl. rewrite Hr.
  rewrite (isActive_section _ "/dashboard/transactions") by done.
  rewrite (isActive_section _ "/dashboard/insights") by done.
  rewrite (isActive_section _ "/dashboard/progress") by done.
  rewrite (isActive_section _ "/dashboard/details") by done.
  destruct (String.prefix "/dashboard/transactions" pathname) eqn:Ht;
    destruct (String.prefix "/dashboard/insights" pathname) eqn:Hi;
    destruct (String.prefix "/dashboard/progress" pathname) eqn:Hp;
    destruct (String.prefix "/dashboard/details" pathname) eqn:Hd;
    simpl; try (split; lia);
    first [ clash Ht Hi | clash Ht Hp | clash Hi Hp ].
Qed.

(** X20: the first entry, ["/dashboard"], is active on that very path
    and on no path below it, and each other entry is active on every
    path that starts with its [href]: there, it is the one entry shown
    as active. *)
Theorem isActive_on_sections (rest : string) :
  List.filter (isActive "/dashboard") navItems = ["/dashboard"] ∧
  (rest ≠ "" -> isActive ("/dashboard" +:+ rest) "/dashboard" = false) ∧
  List.filter (isActive ("/dashboard/transactions" +:+ rest)) navItems
    = ["/dashboard/transactions"] ∧
  List.filter (isActive ("/dashboard/insights" +:+ rest)) navItems
    = ["/dashboard/insights"] ∧
  List.filter (isActive ("/dashboard/progress" +:+ rest)) navItems
    = ["/dashboard/progress"] ∧
  List.filter (isActive ("/dashboard/details" +:+ rest)) navItems_compact
    = ["/dashboard/details"].
Proof.
  destruct rest as [|c rest].
  - repeat split; done.
  - split; [done|]. split; [intros _; vm_compute; reflexivity|].
    repeat split; vm_compute; reflexivity.
Qed.

(** * Properties of the event bus *)

Lemma removeEventListener_absent (callback : nat) (ls : Listeners) :
  callback ∉ ls -> removeEventListener callback ls = ls.
Proof.
  unfold removeEventListener. induction ls as [|c ls IH]; [done|].
  intros Hnot. apply not_elem_of_cons in Hnot as [Hne Hnot].
  rewrite filter_cons_True by done. by rewrite IH.
Qed.

(** X21: after [onTransactionsUpdated], an emit runs the callback, once,
    with the listeners that were there before; after the function it
    returned has been called, an emit no longer runs the callback (an
    earlier subscription of the same callback is gone with it) and runs
    every other listener as before. Subscribing a callback that was not
    there and unsubscribing it gives the listeners back as they were. *)
Theorem onTransactionsUpdated_delivery (callback : nat) (ls : Listeners) :
  NoDup ls ->
  NoDup (emitTransactionsUpdated (fst (onTransactionsUpdated callback (Some ls)))) ∧
  callback ∈ emitTransactionsUpdated (fst (onTransactionsUpdated callback (Some ls))) ∧
  (∀ c, c ∈ ls ->
        c ∈ emitTransactionsUpdated (fst (onTransactionsUpdated callback (Some ls)))) ∧
  (callback ∉ emitTransactionsUpdated
                (snd (onTransactionsUpdated callback (Some ls))
                     (fst (onTransactionsUpdated callback (Some ls))))) ∧
  (∀ c, c ≠ callback ->
        (c ∈ emitTransactionsUpdated
               (snd (onTransactionsUpdated callback (Some ls))
                    (fst (onTransactionsUpdated callback (Some ls))))
         ↔ c ∈ ls)) ∧
  (callback ∉ ls ->
   snd (onTransactionsUpdated callback (Some ls))
       (fst (onTransactionsUpdated callback (Some ls))) = Some ls).
Proof.
  intros Hnodup. simpl. unfold addEventListener.
  assert (Hgone : ∀ l : list nat, callback ∉ removeEventListener callback l).
  { intros l Hin. apply list_elem_of_filter in Hin as [Hne _]. by apply Hne. }
  assert (Hkept : ∀ (l : list nat) c, c ≠ callback ->
                    (c ∈ removeEventListener callback l ↔ c ∈ l)).
  { intros l c Hne. unfold removeEventListener. rewrite list_elem_of_filter.
    split; [by intros [_ ?]|by intros ?]. }
  case_bool_decide as Hin.
  - split; [done|]. split; [done|]. split; [done|].
    split; [apply Hgone|]. split; [apply Hkept|done].
  - split.
    { apply NoDup_app. repeat split; [done| |apply NoDup_singleton].
      intros x Hx Hx'. apply list_elem_of_singleton in Hx'. by subst. }
    split; [apply elem_of_app; right; by apply list_elem_of_singleton|].
    split; [intros c Hc; apply elem_of_app; by left|].
    split; [apply Hgone|].
    split.
    + intros c Hc. rewrite Hkept by done.
      rewrite elem_of_app, list_elem_of_singleton.
      split; [by intros [?|?]|by left].
    + intros _. f_equal. unfold removeEventListener.
      rewrite filter_app. simpl.
      rewrite (filter_cons_False _ callback []) by (intros Hne; by apply Hne).
      rewrite filter_nil, app_nil_r. by apply removeEventListener_absent.
Qed.

(** Two listeners are there; a third subscribes and unsubscribes. *)
Lemma onTransactionsUpdated_delivery_witness :
  emitTransactionsUpdated (fst (onTransactionsUpdated 7 (Some [3; 5]%nat)))
    = [3; 5; 7]%nat ∧
  snd (onTransactionsUpdated 7 (Some [3; 5]%nat))
      (fst (onTransactionsUpdated 7 (Some [3; 5]%nat)))
    = Some [3; 5]%nat.
Proof.
  destruct (onTransactionsUpdated_delivery 7 [3; 5]%nat)
    as (_ & _ & _ & _ & _ & Hback).
  { compute_done. }
  split; [reflexivity|]. apply Hback. compute_done.
Defined.

(** * Properties of the API client *)

Section ApiProperties.
Context `{Platform}.

(** A value that does not convert is an object or an array: truthy. *)
Lemma unconvertible_truthy (v : value) : converts v = false -> truthy v = true.
Proof. by destruct v. Qed.

(** A run of [fetchApi] whose token converts, by what the transport
    answers: one call of [fetch], with [api_request] over the token
    [getAccessToken] gives, and no write to storage. *)
Lemma fetchApi_run (net : Transport) (endpoint : string)
    (options : RequestInit) (a : Api) :
  converts (fst (getAccessToken a)) = true ->
  fetchApi net endpoint options a
  = (match net (api_request (fst (getAccessToken a)) endpoint options) with
     | Rejected => Failed NetworkFailure
     | Fulfilled r =>
         if ok r then
           match json r with
           | Some v => Returned v
           | None => Failed SyntaxError
           end
         else Thrown (default unexpected_error (json r))
     end,
     mkApi (fst (getAccessToken a))
           (sent (api_request (fst (getAccessToken a)) endpoint options) (browser a))).
Proof.
  unfold fetchApi, getAccessToken, api_request, fetch.
  destruct (truthy (accessToken a)) eqn:Htruthy; simpl; intros ->; simpl;
    rewrite ?andb_false_r; simpl;
    destruct (net _) as [|r]; simpl; try done;
    destruct (ok r); simpl; try done; by destruct (json r).
Qed.

(** A run of [fetchApi] whose token does not convert: no request. *)
Lemma fetchApi_unconvertible (net : Transport) (endpoint : string)
    (options : RequestInit) (a : Api) :
  converts (fst (getAccessToken a)) = false ->
  fetchApi net endpoint options a = (Failed TypeError, a).
Proof.
  unfold fetchApi, getAccessToken.
  destruct (truthy (accessToken a)) eqn:Htruthy; simpl.
  - intros ->. by rewrite Htruthy.
  - by destruct (localStorage (browser a) !! "accessToken").
Qed.

(** X22: a token set with [setAccessToken] is the one [getAccessToken]
    gives, and it is in storage; setting [null], or the empty string,
    removes the key from storage, and [getAccessToken] then gives
    [null]. *)
Theorem setAccessToken_getAccessToken (a : Api) (t : string) :
  t ≠ "" ->
  fst (getAccessToken (setAccessToken (VStr t) a)) = VStr t ∧
  localStorage (browser (setAccessToken (VStr t) a)) !! "accessToken" = Some t ∧
  fst (getAccessToken (setAccessToken VNull a)) = VNull ∧
  localStorage (browser (setAccessToken VNull a)) !! "accessToken" = None ∧
  fst (getAccessToken (setAccessToken (VStr "") a)) = VNull ∧
  localStorage (browser (setAccessToken (VStr "") a)) !! "accessToken" = None.
Proof.
  intros Hne. unfold getAccessToken, setAccessToken, after, setItem, removeItem.
  simpl. rewrite !(bool_decide_eq_false_2 _ Hne). simpl.
  rewrite ?(bool_decide_eq_false_2 _ Hne). simpl.
  repeat split; by simplify_map_eq.
Qed.

(** X23: the client keeps its own copy of the token. After the provider's
    [logout] has removed the access token from storage, a client that
    holds a token [t] still sends [Bearer t] with its next request. *)
Theorem api_token_survives_logout (net : Transport) (endpoint : string)
    (options : RequestInit) (a : Api) (t : string) :
  accessToken a = VStr t ->
  t ≠ "" ->
  spread_headers (headers options) !! "Authorization" = None ->
  localStorage (after logout (browser a)) !! "accessToken" = None ∧
  ∃ hs : gmap string string,
    fetched (browser (snd (fetchApi net endpoint options
                             (mkApi (accessToken a) (after logout (browser a))))))
    = fetched (browser a)
      ++ [mkRequest (API_BASE_URL +:+ endpoint)
                    (mkInit (method options) (Some (PlainObject hs))
                            (body options) (extra options))] ∧
    hs !! "Authorization" = Some ("Bearer " +:+ t).
Proof.
  intros Htok Hne Hcaller.
  split; [rewrite after_logout; apply cleared_no_session|].
  exists (api_headers (VStr t) options).
  assert (Hget : getAccessToken (mkApi (accessToken a) (after logout (browser a)))
                 = (VStr t, mkApi (VStr t) (after logout (browser a)))).
  { unfold getAccessToken. simpl. rewrite Htok. simpl.
    by rewrite (bool_decide_eq_false_2 _ Hne). }
  rewrite fetchApi_run by (by rewrite Hget).
  rewrite Hget. simpl.
  split; [done|].
  unfold api_headers, spread. simpl. rewrite (bool_decide_eq_false_2 _ Hne).
  rewrite lookup_union_r by done. simpl.
  rewrite lookup_union_l' by (rewrite lookup_singleton_eq; eauto).
  by rewrite lookup_singleton_eq.
Qed.

(** X24: [fetchApi] with a token that converts to a string, as every
    string and [null] do, makes one request; in its headers every
    member the spread copies from the caller's headers (each member of
    a plain object) stands as given, [Authorization] and [Content-Type]
    included. Where the caller gave none, [Content-Type] is
    [application/json], and [Authorization] is [Bearer] and the token, or
    is left out when the client has no token. With a token that does not
    convert, [fetchApi] rejects with a [TypeError] and makes no
    request. *)
Theorem fetchApi_headers (net : Transport) (endpoint : string)
    (options : RequestInit) (a : Api) :
  (converts (fst (getAccessToken a)) = true ->
   ∃ hs : gmap string string,
     fetched (browser (snd (fetchApi net endpoint options a)))
     = fetched (browser a)
       ++ [mkRequest (API_BASE_URL +:+ endpoint)
                     (mkInit (method options) (Some (PlainObject hs))
                             (body options) (extra options))] ∧
     (∀ k v, spread_headers (headers options) !! k = Some v -> hs !! k = Some v) ∧
     (spread_headers (headers options) !! "Content-Type" = None ->
      hs !! "Content-Type" = Some "application/json") ∧
     (spread_headers (headers options) !! "Authorization" = None ->
      hs !! "Authorization"
      = if truthy (fst (getAccessToken a))
        then Some ("Bearer " +:+ ToString (fst (getAccessToken a)))
        else None)) ∧
  (converts (fst (getAccessToken a)) = false ->
   fetchApi net endpoint options a = (Failed TypeError, a)).
Proof.
  split; [|apply fetchApi_unconvertible].
  intros Hconverts.
  exists (api_headers (fst (getAccessToken a)) options).
  rewrite fetchApi_run by done. simpl.
  split; [done|]. unfold api_headers, spread.
  split; [intros k v Hk; by apply lookup_union_Some_l|].
  split; intros Hcaller; rewrite lookup_union_r by done.
  - destruct (truthy _).
    + rewrite lookup_union_r by done. by rewrite lookup_singleton_eq.
    + rewrite lookup_union_r by apply lookup_empty.
      by rewrite lookup_singleton_eq.
  - destruct (truthy _).
    + rewrite lookup_union_l' by (rewrite lookup_singleton_eq; eauto).
      by rewrite lookup_singleton_eq.
    + by rewrite lookup_union_r by apply lookup_empty.
Qed.

(** X25: [fetchApi] resolves only to the JSON body of an ok response.
    With a token that converts to a string, a response that is not ok
    makes it throw the body, or the default error when the body is not
    JSON; an ok response whose body is not JSON, and a rejected [fetch],
    make it reject. With a token that does not convert it rejects with a
    [TypeError] before any request. In no case does it write to storage
    or change the token it holds. *)
Theorem fetchApi_outcome (net : Transport) (endpoint : string)
    (options : RequestInit) (a : Api) :
  (∀ v, fst (fetchApi net endpoint options a) = Returned v ->
        ∃ r, net (api_request (fst (getAccessToken a)) endpoint options) = Fulfilled r ∧
             ok r = true ∧ json r = Some v) ∧
  (converts (fst (getAccessToken a)) = true ->
   (∀ r, net (api_request (fst (getAccessToken a)) endpoint options) = Fulfilled r ->
         ok r = false ->
         fst (fetchApi net endpoint options a)
         = Thrown (default unexpected_error (json r))) ∧
   (∀ r, net (api_request (fst (getAccessToken a)) endpoint options) = Fulfilled r ->
         ok r = true -> json r = None ->
         fst (fetchApi net endpoint options a) = Failed SyntaxError) ∧
   (net (api_request (fst (getAccessToken a)) endpoint options) = Rejected ->
    fst (fetchApi net endpoint options a) = Failed NetworkFailure)) ∧
  (converts (fst (getAccessToken a)) = false ->
   fetchApi net endpoint options a = (Failed TypeError, a)) ∧
  localStorage (browser (snd (fetchApi net endpoint options a)))
  = localStorage (browser a) ∧
  accessToken (snd (fetchApi net endpoint options a)) = fst (getAccessToken a).
Proof.
  destruct (converts (fst (getAccessToken a))) eqn:Hconverts.
  - rewrite fetchApi_run by done. simpl.
    split.
    { intros v. destruct (net _) as [|r]; [done|].
      destruct (ok r) eqn:Hok; [|done].
      destruct (json r) as [v'|] eqn:Hjson; [|done].
      intros [= <-]. by exists r. }
    split.
    { intros _. split; [by intros r -> ->|].
      split; [by intros r -> -> ->|]. by intros ->. }
    by split.
  - rewrite fetchApi_unconvertible by done. simpl.
    split; [done|]. split; [done|]. split; [done|]. split; [done|].
    unfold getAccessToken.
    by rewrite (unconvertible_truthy (accessToken a))
      by (unfold getAccessToken in Hconverts;
          destruct (truthy (accessToken a)); [done|];
          by destruct (localStorage (browser a) !! "accessToken")).
Qed.

End ApiProperties.

Section ApiAuth.
Context `{Platform}.

(** X26: [authApi.logout] drops the token only when the server call
    resolves: then the client's copy is [null] and the key is gone from
    storage. When it does not resolve, storage is as before and the
    client still holds its token; that is so for a rejected [fetch], for
    a response that is not ok, for an ok response without a JSON body, a
    204 among them, and for a token that does not convert to a string,
    with which no request is made. *)
Theorem authApi_logout_outcome (net : Transport) (a : Api) :
  (converts (fst (getAccessToken a)) = true ->
   (∀ r v, net (authApi_logout_request a) = Fulfilled r ->
           ok r = true -> json r = Some v ->
           fst (authApi_logout net a) = Returned VUndefined ∧
           accessToken (snd (authApi_logout net a)) = VNull ∧
           localStorage (browser (snd (authApi_logout net a))) !! "accessToken" = None) ∧
   (∀ r, net (authApi_logout_request a) = Fulfilled r ->
         ok r = true -> json r = None ->
         fst (authApi_logout net a) = Failed SyntaxError)) ∧
  (converts (fst (getAccessToken a)) = false ->
   authApi_logout net a = (Failed TypeError, a)) ∧
  ((∀ v, fst (authApi_logout net a) ≠ Returned v) ->
   localStorage (browser (snd (authApi_logout net a))) = localStorage (browser a) ∧
   accessToken (snd (authApi_logout net a)) = fst (getAccessToken a)).
Proof.
  unfold authApi_logout, authApi_logout_request.
  destruct (converts (fst (getAccessToken a))) eqn:Hconverts.
  2: { rewrite fetchApi_unconvertible by done. simpl.
       split; [done|]. split; [done|]. intros _. split; [done|].
       unfold getAccessToken.
       by rewrite (unconvertible_truthy (accessToken a))
         by (unfold getAccessToken in Hconverts;
             destruct (truthy (accessToken a)); [done|];
             by destruct (localStorage (browser a) !! "accessToken")). }
  rewrite fetchApi_run by done.
  destruct (net _) as [|r]; simpl.
  { split; [by intros _|]. split; [done|]. by intros _. }
  destruct (ok r) eqn:Hok; simpl.
  2: { split; [intros _; split; [intros r' v [= <-]; congruence
                                 | intros r' [= <-]; congruence]|].
       split; [done|]. by intros _. }
  destruct (json r) as [v|] eqn:Hjson; simpl.
  - split.
    { intros _. split.
      - intros r' v' _ _ _. unfold setAccessToken, after, removeItem. simpl.
        repeat split. by simplify_map_eq.
      - intros r' [= <-]; congruence. }
    split; [done|].
    intros Hnot. by destruct (Hnot VUndefined).
  - split; [intros _; split; [intros r' v [= <-]; congruence | done]|].
    split; [done|]. by intros _.
Qed.

(** X27: [authApi.login], answered with an ok response whose body is an
    object, assigns the body's [accessToken] member to the client before
    it writes to storage. When that member converts to a string the call
    resolves to the body, and storage holds the member's text if it is
    truthy; for a body without the member the call still resolves, the
    client holds [undefined], and the key is removed from storage,
    whatever token was there. When the member does not convert, the call
    rejects with a [TypeError], the client holds the member, and storage
    is as it was. *)
Theorem authApi_login_outcome (net : Transport) (email password : string)
    (a : Api) (r : Response) (props : list (string * value)) :
  converts (fst (getAccessToken a)) = true ->
  net (authApi_login_request email password a) = Fulfilled r ->
  ok r = true ->
  json r = Some (VObj props) ->
  accessToken (snd (authApi_login net email password a))
    = own_prop "accessToken" props ∧
  (converts (own_prop "accessToken" props) = true ->
   fst (authApi_login net email password a) = Returned (VObj props) ∧
   localStorage (browser (snd (authApi_login net email password a))) !! "accessToken"
     = (if truthy (own_prop "accessToken" props)
        then Some (ToString (own_prop "accessToken" props))
        else None)) ∧
  (converts (own_prop "accessToken" props) = false ->
   fst (authApi_login net email password a) = Failed TypeError ∧
   localStorage (browser (snd (authApi_login net email password a)))
     = localStorage (browser a)).
Proof.
  intros Hconverts Hnet Hok Hjson.
  unfold authApi_login, authApi_login_request in *. rewrite fetchApi_run by done.
  rewrite Hnet, Hok, Hjson. simpl.
  unfold setAccessToken_completion, setAccessToken, result, after, setItem, removeItem.
  simpl.
  destruct (converts (own_prop "accessToken" props)) eqn:Hmember.
  - destruct (truthy (own_prop "accessToken" props)); simpl;
      (split; [done|]); (split; [|done]); intros _; split; by simplify_map_eq.
  - rewrite (unconvertible_truthy _ Hmember). simpl.
    split; [done|]. by split.
Qed.

End ApiAuth.

(** A token is set in alice's client. *)
Lemma setAccessToken_getAccessToken_witness :
  fst (getAccessToken (setAccessToken (VStr "T2") holding)) = VStr "T2" ∧
  localStorage (browser (setAccessToken (VStr "T2") holding)) !! "accessToken"
    = Some "T2".
Proof.
  destruct (setAccessToken_getAccessToken holding "T2") as (Hget & Hstore & _);
    [discriminate|].
  split; [exact Hget | exact Hstore].
Defined.

(** Alice signs out through the provider, and her client calls on. *)
Lemma api_token_survives_logout_witness :
  localStorage (after logout (browser holding)) !! "accessToken" = None ∧
  ∃ hs : gmap string string,
    fetched (browser (snd (@fetchApi sample refusing "/dashboard"
                             (mkInit None None None ∅)
                             (mkApi (accessToken holding)
                                    (after logout (browser holding))))))
    = [mkRequest (@API_BASE_URL sample +:+ "/dashboard")
                 (mkInit None (Some (PlainObject hs)) None ∅)] ∧
    hs !! "Authorization" = Some "Bearer T1".
Proof.
  apply (@api_token_survives_logout sample refusing "/dashboard"
           (mkInit None None None ∅) holding "T1");
    first [ reflexivity | discriminate ].
Defined.

(** Alice's client asks for the dashboard. *)
Lemma fetchApi_headers_witness :
  ∃ hs : gmap string string,
    fetched (browser (snd (@fetchApi sample refusing "/dashboard"
                             (mkInit None None None ∅) holding)))
    = [mkRequest (@API_BASE_URL sample +:+ "/dashboard")
                 (mkInit None (Some (PlainObject hs)) None ∅)] ∧
    hs !! "Content-Type" = Some "application/json" ∧
    hs !! "Authorization" = Some "Bearer T1".
Proof.
  destruct (proj1 (@fetchApi_headers sample refusing "/dashboard"
                     (mkInit None None None ∅) holding) eq_refl)
    as (hs & Hfetch & _ & Htype & Hauth).
  exists hs. split; [exact Hfetch|].
  split; [apply Htype | apply Hauth]; reflexivity.
Defined.

(** A login of the client is answered with a token that does not
    convert, and the client calls again. *)
Lemma fetchApi_outcome_witness :
  @fetchApi sample refusing "/dashboard" (mkInit None None None ∅)
    (mkApi (VObj [("toString", VNum "0")]) signed_in)
  = (Failed TypeError, mkApi (VObj [("toString", VNum "0")]) signed_in).
Proof.
  destruct (@fetchApi_outcome sample refusing "/dashboard" (mkInit None None None ∅)
              (mkApi (VObj [("toString", VNum "0")]) signed_in))
    as (_ & _ & Hthrows & _).
  apply Hthrows. reflexivity.
Defined.

(** The provider's server, which names the token [access_token], answers
    a login of the client. *)
Lemma authApi_login_outcome_witness :
  fst (@authApi_login sample (welcoming "R1") "a@b.com" "pw" holding)
    = Returned (VObj [("access_token", VStr "T1"); ("refresh_token", VStr "R1");
                      ("user", alice)]) ∧
  accessToken (snd (@authApi_login sample (welcoming "R1") "a@b.com" "pw" holding))
    = VUndefined ∧
  localStorage (browser (snd (@authApi_login sample (welcoming "R1") "a@b.com" "pw"
                                holding))) !! "accessToken" = None.
Proof.
  destruct (@authApi_login_outcome sample (welcoming "R1") "a@b.com" "pw" holding
              (welcome "R1")
              [("access_token", VStr "T1"); ("refresh_token", VStr "R1"); ("user", alice)]
              eq_refl eq_refl eq_refl eq_refl)
    as (Hcell & Hresolves & _).
  destruct (Hresolves eq_refl) as [Hout Hstore].
  split; [exact Hout|]. split; [exact Hcell | exact Hstore].
Defined.

(** The server acknowledges a logout with 204: the token stays. *)
Lemma authApi_logout_outcome_witness :
  fst (@authApi_logout sample acknowledging holding) = Failed SyntaxError ∧
  accessToken (snd (@authApi_logout sample acknowledging holding)) = VStr "T1" ∧
  localStorage (browser (snd (@authApi_logout sample acknowledging holding)))
    !! "accessToken" = Some "T1".
Proof.
  destruct (@authApi_logout_outcome sample acknowledging holding)
    as (Hconverts & _ & Hkept).
  destruct (Hconverts eq_refl) as [_ Hfailed].
  assert (Hout : fst (@authApi_logout sample acknowledging holding)
                 = Failed SyntaxError).
  { apply (Hfailed no_content); reflexivity. }
  destruct Hkept as [Hstore Htok].
  { intros v. rewrite Hout. discriminate. }
  split; [exact Hout|]. split; [rewrite Htok; reflexivity|].
  rewrite Hstore. reflexivity.
Defined.
